(** * OpenAI-RAG-App: the indexing path

    A shallow embedding of [src/pdf_handler.py], [src/vectorstore.py] and the
    knowledge-base update of [app.py].  Python exceptions are values of
    [result]; the file system, the identifier supply, the Pinecone control
    plane, the Chroma collections, the ledger and the vector store are
    threaded explicitly. *)

From Stdlib Require Import Strings.Byte Strings.Ascii.
From stdpp Require Import gmap strings list fin_maps pretty stringmap.

Open Scope string_scope.
Open Scope list_scope.
Open Scope nat_scope.

#[local] Set Warnings "-clear-no-such-hyp".

(** ** Exceptions as values *)

Inductive result (A : Type) : Type :=
| Ok (a : A)
| Raise (msg : string).
Arguments Ok {A} a.
Arguments Raise {A} msg.

Definition is_ok {A} (r : result A) : bool :=
  match r with Ok _ => true | Raise _ => false end.

(** ** Documents

    A LangChain [Document] is a text with a metadata mapping; the indexing
    path reads two entries of it: [source] (the path the loader read the text
    from) and the position of the text in that source. *)

Record Document := mkDocument {
  page_content : string;
  source : string;
  position : nat
}.

Global Instance Document_eq_dec : EqDecision Document.
Proof. solve_decision. Defined.

Module Chunker.

(** The two constants [split_pdf] passes to the splitter. *)
Definition chunk_size : nat := 512.
Definition chunk_overlap : nat := 64.

Section SplitPdf.
(** [RecursiveCharacterTextSplitter(chunk_size, chunk_overlap,
    length_function=len, is_separator_regex=False).split_documents] is a
    library call: it is a parameter of [split_pdf]. *)
Variable split_documents : nat → nat → list Document → result (list Document).

(** [split_pdf] of [pdf_handler.py]: [if not pdfs: return []], otherwise
    the splitter is built and applied. *)
Definition split_pdf (pdfs : list Document) : result (list Document) :=
  match pdfs with
  | [] => Ok []
  | _ :: _ => split_documents chunk_size chunk_overlap pdfs
  end.
End SplitPdf.

(** Modelled from the spec: the body of the splitter, which the source
    imports from its text-splitting library, is not in the repository.
    Section 4.1: windows are produced by scanning the text and emitting
    overlapping spans until the end is reached; the final window may be
    shorter than the configured size.
    [spans_from fuel size overlap len start] lists the half-open character
    spans [(first, last)] of the windows from [start] on. *)
Fixpoint spans_from (fuel size overlap len start : nat) : list (nat * nat) :=
  match fuel with
  | 0 => []
  | S fuel' =>
      if decide (len ≤ start + size)
      then [(start, len)]
      else (start, start + size)
             :: spans_from fuel' size overlap len (start + (size - overlap))
  end.

(** Modelled from the spec: the windows of a text of [len] characters; every
    step advances by [size - overlap >= 1] characters, so [len] steps reach
    the end. *)
Definition window_spans (size overlap len : nat) : list (nat * nat) :=
  spans_from len size overlap len 0.

(** Modelled from the spec: a chunk carries the text of its span and the
    provenance of the document: its source and the offset of the span. *)
Definition chunk_of (d : Document) (sp : nat * nat) : Document :=
  {| page_content := String.substring sp.1 (sp.2 - sp.1) (page_content d);
     source := source d;
     position := sp.1 |}.

(** Modelled from the spec: [split(document)] of section 4.1, the chunks of
    one document in the order of its text. *)
Definition split (size overlap : nat) (d : Document) : list Document :=
  chunk_of d <$> window_spans size overlap (String.length (page_content d)).

(** Modelled from the spec: the chunks of a list of documents, in document
    order. *)
Definition split_documents_spec (size overlap : nat) (ds : list Document)
  : result (list Document) :=
  Ok (ds ≫= split size overlap).

(** A document of 1000 characters. *)
Definition doc1000 : Document :=
  mkDocument (String.string_of_list_ascii (replicate 1000 "a"%char)) "report.pdf" 0.

End Chunker.

(** ** State with exceptions

    A computation over a state [S] returns a value or raises, and in both
    cases leaves a state behind: what was written before an exception stays
    written. *)

Definition M (S A : Type) : Type := S → result A * S.

Definition ret {S A} (a : A) : M S A := λ s, (Ok a, s).
Definition raise {S A} (msg : string) : M S A := λ s, (Raise msg, s).
Definition bind {S A B} (m : M S A) (k : A → M S B) : M S B :=
  λ s, match m s with
       | (Ok a, s') => k a s'
       | (Raise msg, s') => (Raise msg, s')
       end.
(** [try: m except Exception as e: h e] *)
Definition try_except {S A} (m : M S A) (h : string → M S A) : M S A :=
  λ s, match m s with
       | (Ok a, s') => (Ok a, s')
       | (Raise msg, s') => h msg s'
       end.
Definition modify {S} (f : S → S) : M S unit := λ s, (Ok tt, f s).
Definition lift_result {S A} (r : result A) : M S A := λ s, (r, s).

Notation "'let*' x ':=' m 'in' k" := (bind m (λ x, k))
  (at level 10, x name, m at level 100, k at level 200, only parsing).

(** [for x in xs: body x] *)
Fixpoint for_each {S A} (xs : list A) (body : A → M S unit) : M S unit :=
  match xs with
  | [] => ret tt
  | x :: xs' => let* _ := body x in for_each xs' body
  end.

(** ** Uploads and the disk *)

Abbreviation bytes := (list byte).

Global Instance byte_eq_dec : EqDecision byte := Byte.byte_eq_dec.

(** What [extract_pdf] can be handed as one file: a Streamlit [UploadedFile]
    (it has [name] and [getvalue]), a [bytes] object, or any other object
    (neither attribute, and not writable to a binary file). *)
Inductive PyFile :=
| UploadedFile (name : string) (value : bytes)
| RawBytes (content : bytes)
| OtherObject.

Global Instance PyFile_eq_dec : EqDecision PyFile.
Proof. solve_decision. Defined.

(** The argument of [extract_pdf]: a list of files or a single file. *)
Inductive PyArg :=
| Single (f : PyFile)
| Many (fs : list PyFile).

(** The disk: every directory with the files directly in it, and the supply
    the process draws its [uuid4] values from. *)
Record Disk := mkDisk {
  dirs : gmap string (gmap string bytes);
  next_uuid : nat
}.

Module Extract.

(** The path separator occurs in the name. *)
Fixpoint has_slash (s : string) : bool :=
  match s with
  | EmptyString => false
  | String c s' => if decide (c = "/"%char) then true else has_slash s'
  end.

(** [tempfile.mkdtemp(prefix)]: a directory that did not exist is created,
    its name starts with the prefix. *)
Definition mkdtemp (prefix : string) : M Disk string :=
  λ d, let name := fresh_string prefix (dirs d) in
       (Ok name, mkDisk (<[name := ∅]> (dirs d)) (next_uuid d)).

(** [str(uuid.uuid4())]: the next identifier of the supply. *)
Definition uuid4 : M Disk string :=
  λ d, (Ok (pretty (next_uuid d)), mkDisk (dirs d) (S (next_uuid d))).

(** [open(os.path.join(dir, fname), 'wb')]: the file is created empty (or
    truncated).  It raises when [dir] does not exist, and when [fname] has a
    path separator: the file would lie in a subdirectory, and the flat
    directories of [Disk] have none.  Other names the file system refuses (a
    name that is too long, for one) are not told apart: on this disk every
    name without separator can be written. *)
Definition open_wb (dir fname : string) : M Disk unit :=
  λ d, match dirs d !! dir with
       | None => (Raise "[Errno 2] No such file or directory", d)
       | Some files =>
           if has_slash fname
           then (Raise "[Errno 2] No such file or directory", d)
           else (Ok tt, mkDisk (<[dir := <[fname := []]> files]> (dirs d)) (next_uuid d))
       end.

(** [w.write(content)] on the file just opened: a [bytes] content is
    written, any other object raises [TypeError]. *)
Definition write (dir fname : string) (content : PyFile) : M Disk unit :=
  match content with
  | RawBytes b =>
      modify (λ d, mkDisk (alter (insert fname b) dir (dirs d)) (next_uuid d))
  | _ => raise "a bytes-like object is required"
  end.

(** [shutil.rmtree(dir, ignore_errors=True)] *)
Definition rmtree (dir : string) : M Disk unit :=
  modify (λ d, mkDisk (delete dir (dirs d)) (next_uuid d)).

(** The name and the content the loop of [extract_pdf] computes for a file,
    given the identifier drawn for it. *)
Definition target (unique_id : string) (file : PyFile) : string * PyFile :=
  match file with
  | UploadedFile name value => (unique_id +:+ "_" +:+ name, RawBytes value)
  | _ => (unique_id +:+ "_uploaded.pdf", file)
  end.

(** The body of the [for] loop of [extract_pdf]. *)
Definition extract_one (temp_dir : string) (file : PyFile) : M Disk unit :=
  let* unique_id := uuid4 in
  let fname := (target unique_id file).1 in
  let content := (target unique_id file).2 in
  let* _ := open_wb temp_dir fname in
  write temp_dir fname content.

(** The name the loop gives the file written for [file] when it draws the
    [n]-th identifier. *)
Definition file_name (n : nat) (file : PyFile) : string :=
  (target (pretty n) file).1.

(** No character of the string is the separator [_]; so it is for the
    identifiers of the supply. *)
Fixpoint no_sep (s : string) : Prop :=
  match s with
  | EmptyString => True
  | String c s' => c ≠ "_"%char ∧ no_sep s'
  end.

(** Every file of the directory was named with an identifier drawn before
    the [n]-th. *)
Definition names_below (n : nat) (files : gmap string bytes) : Prop :=
  ∀ name, is_Some (files !! name) → ∃ j f, j < n ∧ name = file_name j f.

(** The bytes a file object stands for, if any. *)
Definition content_of (file : PyFile) : option bytes :=
  match file with
  | UploadedFile _ value => Some value
  | RawBytes content => Some content
  | OtherObject => None
  end.

(** [if not isinstance(uploaded_pdf, list): uploaded_pdf = [uploaded_pdf]] *)
Definition normalize (uploaded_pdf : PyArg) : list PyFile :=
  match uploaded_pdf with
  | Many fs => fs
  | Single f => [f]
  end.

(** [extract_pdf] of [pdf_handler.py]. *)
Definition extract_pdf (uploaded_pdf : PyArg) : M Disk string :=
  let* temp_dir := mkdtemp "pdf_extract_" in
  let uploaded_pdf := normalize uploaded_pdf in
  let* _ :=
    try_except
      (for_each uploaded_pdf (extract_one temp_dir))
      (λ e, let* _ := rmtree temp_dir in raise ("Failed to extract PDF: " +:+ e)) in
  ret temp_dir.

End Extract.

(** ** The reconciler: ledger, vector store, [index]

    [VectorDB.index] hands the chunks to the indexing routine of its library
    with a record manager (the ledger), a vector store, [cleanup='full'] and
    [source_id_key='source'].  The routine itself is not in the repository. *)

Abbreviation Digest := string (only parsing).
(** The chunk id: derived from [(source, digest)]. *)
Abbreviation ChunkId := (string * string)%type (only parsing).

(** Modelled from the spec: the ledger entry of section 3, kept under its
    chunk id: content hash, source group, and logical time last seen. *)
Record LedgerEntry := mkEntry {
  content_hash : Digest;
  group_id : string;
  last_seen : nat
}.

(** Modelled from the spec: what [upsert(id, embedding, text, metadata)] of
    section 4.4 stores under an id.  The components of an embedding are kept
    as integers; nothing below depends on their values. *)
Record VectorRecord := mkVector {
  embedding : list Z;
  text : string;
  metadata : string * nat
}.

(** Modelled from the spec: the two stores the reconciler mutates. *)
Record State := mkState {
  ledger : gmap ChunkId LedgerEntry;
  vstore : gmap ChunkId VectorRecord
}.

(** Modelled from the spec: the cleanup modes [full], [incremental] and
    [none] of section 4.5. *)
Inductive CleanupMode := Full | Incremental | NoCleanup.

(** Modelled from the spec: the counts [reconcile] returns. *)
Record Counts := mkCounts {
  num_added : nat;
  num_skipped : nat;
  num_deleted : nat
}.

Global Instance LedgerEntry_eq_dec : EqDecision LedgerEntry.
Proof. solve_decision. Defined.
Global Instance VectorRecord_eq_dec : EqDecision VectorRecord.
Proof. solve_decision. Defined.

(** An empty ledger and an empty vector store. *)
Definition init_state : State := mkState ∅ ∅.

Module Reconciler.

Section Reconcile.
(** The content hash (a cryptographic digest of the chunk text) and the
    embedding capability are external; the latter may fail. *)
Variable digest : string → Digest.
Variable embed : string → result (list Z).

(** Modelled from the spec: the fingerprint and the id of a chunk, which
    the indexing routine computes (section 4.2): the content hash is a
    digest of the chunk text, the id is derived from [(source, digest)]. *)
Definition fingerprint (c : Document) : Digest := digest (page_content c).

(** Modelled from the spec: the chunk id of the indexing routine, derived
    from [(source, digest)] (section 4.2). *)
Definition chunk_id (c : Document) : ChunkId := (source c, fingerprint c).

(** Modelled from the spec: the ids of a batch, in order (step 1 of
    section 4.5). *)
Definition ids (chunks : list Document) : list ChunkId := chunk_id <$> chunks.

(** Modelled from the spec: the ledger contract of section 4.3, whose
    implementation is the library's record manager.  [update] upserts a
    row per key with [last_seen = time]; [list_keys] returns the keys of a
    group whose [last_seen] is strictly older than [before]; [delete]
    removes rows. *)
Definition ledger_update (g : string) (chunks : list Document) (time : nat)
    (l : gmap ChunkId LedgerEntry) : gmap ChunkId LedgerEntry :=
  foldl (λ l c, <[chunk_id c := mkEntry (fingerprint c) g time]> l) l chunks.

(** Modelled from the spec: the rows [list_keys] of the ledger selects, of
    the group and strictly older than [before]. *)
Definition stale_row (g : string) (before : nat) (kv : ChunkId * LedgerEntry) : Prop :=
  group_id kv.2 = g ∧ last_seen kv.2 < before.

(** Modelled from the spec: [list_keys(group_id, before_time)] of the
    ledger. *)
Definition ledger_list_keys (g : string) (before : nat)
    (l : gmap ChunkId LedgerEntry) : gset ChunkId :=
  dom (filter (stale_row g before) l).

(** Modelled from the spec: [delete(keys)] of the ledger. *)
Definition ledger_delete (keys : gset ChunkId)
    (l : gmap ChunkId LedgerEntry) : gmap ChunkId LedgerEntry :=
  filter (λ kv, kv.1 ∉ keys) l.

(** Modelled from the spec: the vector store capability of section 4.4,
    implemented by the configured backend: [upsert] and [delete]. *)
Definition vs_upsert (vs : gmap ChunkId VectorRecord) (ce : Document * list Z)
  : gmap ChunkId VectorRecord :=
  <[chunk_id ce.1 := mkVector ce.2 (page_content ce.1) (source ce.1, position ce.1)]> vs.

(** Modelled from the spec: [delete(ids)] of the vector store. *)
Definition vs_delete (keys : gset ChunkId)
    (vs : gmap ChunkId VectorRecord) : gmap ChunkId VectorRecord :=
  filter (λ kv, kv.1 ∉ keys) vs.

(** Modelled from the spec: step 2 of section 4.5.  A chunk is unchanged
    if a ledger entry exists for its id with the same content hash; it is
    new or changed otherwise. *)
Definition unchanged (l : gmap ChunkId LedgerEntry) (c : Document) : bool :=
  match l !! chunk_id c with
  | Some e => bool_decide (content_hash e = fingerprint c)
  | None => false
  end.

(** Modelled from the spec: the embedding of a batch by the indexing
    routine; the first failure aborts the batch (section 7). *)
Fixpoint embed_all (chunks : list Document) : result (list (Document * list Z)) :=
  match chunks with
  | [] => Ok []
  | c :: cs =>
      match embed (page_content c) with
      | Raise msg => Raise msg
      | Ok v =>
          match embed_all cs with
          | Raise msg => Raise msg
          | Ok vs => Ok ((c, v) :: vs)
          end
      end
  end.

(** Modelled from the spec: step 4 of section 4.5, the keys a cleanup mode
    deletes once the ledger [l] has been updated at [time]. *)
Definition stale_keys (g : string) (chunks : list Document) (mode : CleanupMode)
    (time : nat) (l : gmap ChunkId LedgerEntry) : gset ChunkId :=
  match mode with
  | Full => ledger_list_keys g time l
  | Incremental => ledger_list_keys g time l ∩ list_to_set (ids chunks)
  | NoCleanup => ∅
  end.

(** Modelled from the spec: [reconcile(group_id, chunks, cleanup_mode,
    time)] of section 4.5, the routine [VectorDB.index] calls.  New or
    changed chunks are embedded and upserted, every incoming key is
    touched in the ledger, the cleanup mode is applied (vector store
    first, then ledger), and the counts are returned.  A failing embedding
    aborts the run before anything is written. *)
Definition reconcile (g : string) (chunks : list Document) (mode : CleanupMode)
    (time : nat) (s : State) : result (State * Counts) :=
  let fresh := filter (λ c, unchanged (ledger s) c = false) chunks in
  match embed_all fresh with
  | Raise msg => Raise ("EmbeddingError: " +:+ msg)
  | Ok embedded =>
      let vs1 := foldl vs_upsert (vstore s) embedded in
      let l1 := ledger_update g chunks time (ledger s) in
      let stale := stale_keys g chunks mode time l1 in
      let vs2 := vs_delete stale vs1 in
      let l2 := ledger_delete stale l1 in
      Ok (mkState l2 vs2,
          mkCounts (length fresh) (length chunks - length fresh) (size stale))
  end.

(** The invariant of section 3: a ledger entry exists if and only if a
    vector with that id exists. *)
Definition consistent (s : State) : Prop :=
  ∀ k, is_Some (ledger s !! k) ↔ is_Some (vstore s !! k).

(** A row with [last_seen] set to [t]. *)
Definition touch (t : nat) (e : LedgerEntry) : LedgerEntry :=
  mkEntry (content_hash e) (group_id e) t.

(** The ledger with the rows of [keys] touched at [t], the others as they
    are. *)
Definition refresh (keys : list ChunkId) (t : nat)
    (l : gmap ChunkId LedgerEntry) : gmap ChunkId LedgerEntry :=
  map_imap (λ k e, Some (if decide (k ∈ keys) then touch t e else e)) l.

(** Every row of the ledger is of group [g] and was last seen before [t]. *)
Definition only_group_older (g : string) (t : nat) (s : State) : Prop :=
  ∀ k e, ledger s !! k = Some e → group_id e = g ∧ last_seen e < t.

(** Every row of group [g] was last seen before [t]. *)
Definition group_older (g : string) (t : nat) (s : State) : Prop :=
  ∀ k e, ledger s !! k = Some e → group_id e = g → last_seen e < t.

End Reconcile.

(** A run of the reconciler, and a history of runs: a run that raises leaves
    the stores as they are. *)
Record Run := mkRun {
  run_group : string;
  run_chunks : list Document;
  run_mode : CleanupMode;
  run_time : nat
}.

Fixpoint run_all (digest : string → Digest) (embed : string → result (list Z))
    (runs : list Run) (s : State) : State :=
  match runs with
  | [] => s
  | r :: runs' =>
      match reconcile digest embed (run_group r) (run_chunks r) (run_mode r) (run_time r) s with
      | Ok (s', _) => run_all digest embed runs' s'
      | Raise _ => run_all digest embed runs' s
      end
  end.

(** Sample data: a digest that keeps the text, an embedding of one
    component, and three chunks, two of them with the same text and position
    in different sources. *)
Definition ex_digest (s : string) : Digest := s.
Definition ex_embed (s : string) : result (list Z) := Ok [Z.of_nat (String.length s)].
Definition ex_fail (s : string) : result (list Z) := Raise "rate limited".
Definition cA : Document := mkDocument "alpha" "a.pdf" 0.
Definition cB : Document := mkDocument "beta" "a.pdf" 5.
Definition cC : Document := mkDocument "alpha" "b.pdf" 0.

End Reconciler.

(** ** The backends and the world of [VectorDB] *)

Record PineconeIndex := mkIndex {
  dimension : nat;
  metric : string;
  serverless : bool;
  vectors : gmap ChunkId VectorRecord
}.

(** The control-plane calls [setup_pinecone] makes. *)
Inductive AdminCall :=
| ListIndexes
| DescribeIndex (name : string)
| DeleteIndex (name : string)
| CreateIndex (name : string) (dim : nat).

(** The Pinecone service: whether it answers at all (key and network),
    whether [describe_index] answers, its indexes, and the control-plane calls
    received so far, oldest first. *)
Record Pinecone := mkPinecone {
  api_ok : bool;
  describe_ok : bool;
  indexes : gmap string PineconeIndex;
  admin_log : list AdminCall
}.

(** A Chroma collection has no dimension until a first vector is added. *)
Record ChromaCollection := mkCollection {
  chroma_dim : option nat;
  chroma_vectors : gmap ChunkId VectorRecord
}.

Record World := mkWorld {
  disk : Disk;
  pinecone : Pinecone;
  (** collections, by persist directory and collection name *)
  chroma : gmap (string * string) ChromaCollection;
  (** ledger tables, by database url and namespace *)
  ledgers : gmap (string * string) (gmap ChunkId LedgerEntry)
}.

Definition lift_disk {A} (m : M Disk A) : M World A :=
  λ w, let '(r, d) := m (disk w) in
       (r, mkWorld d (pinecone w) (chroma w) (ledgers w)).

Definition lift_pinecone {A} (m : M Pinecone A) : M World A :=
  λ w, let '(r, p) := m (pinecone w) in
       (r, mkWorld (disk w) p (chroma w) (ledgers w)).

(** The part of the configuration that [VectorDB.__init__] reads through
    [load_config] of [src/utils.py]; the configuration is a parameter of the
    initialization. *)
Record Config := mkConfig {
  model_name : string;
  dimensions : option nat
}.

Record VectorDB := mkVectorDB {
  db_name : string;
  index_name : string;
  cache_dir : string
}.

(** The control plane of Pinecone is the same in [w'] as in [w]: the same
    calls were received, and every index has the dimension it had. *)
Definition same_control (w w' : World) : Prop :=
  admin_log (pinecone w') = admin_log (pinecone w)
  ∧ ∀ name, dimension <$> indexes (pinecone w') !! name
            = dimension <$> indexes (pinecone w) !! name.

(** A computation that leaves the control plane as it finds it. *)
Definition keeps_control {A} (m : M World A) : Prop :=
  ∀ w, same_control w (m w).2.

Module Backend.

Definition log_call (c : AdminCall) (p : Pinecone) : Pinecone :=
  mkPinecone (api_ok p) (describe_ok p) (indexes p) (admin_log p ++ [c]).

Definition set_indexes (ix : gmap string PineconeIndex) (p : Pinecone) : Pinecone :=
  mkPinecone (api_ok p) (describe_ok p) ix (admin_log p).

(** [pc.list_indexes().names()] *)
Definition list_indexes : M Pinecone (gset string) :=
  λ p, if api_ok p then (Ok (dom (indexes p)), log_call ListIndexes p)
       else (Raise "Pinecone API unreachable", p).

(** [pc.describe_index(name).dimension] *)
Definition describe_index (name : string) : M Pinecone nat :=
  λ p, if api_ok p && describe_ok p
       then match indexes p !! name with
            | Some ix => (Ok (dimension ix), log_call (DescribeIndex name) p)
            | None => (Raise "index not found", log_call (DescribeIndex name) p)
            end
       else (Raise "describe_index failed", p).

(** [pc.delete_index(name)] *)
Definition delete_index (name : string) : M Pinecone unit :=
  λ p, if api_ok p
       then (Ok tt, log_call (DeleteIndex name) (set_indexes (delete name (indexes p)) p))
       else (Raise "Pinecone API unreachable", p).

(** [pc.create_index(name, dimension, metric, spec)] *)
Definition create_index (name : string) (dim : nat) (metric : string) (sl : bool)
  : M Pinecone unit :=
  λ p, if api_ok p
       then match indexes p !! name with
            | Some _ => (Raise "index already exists", p)
            | None =>
                (Ok tt, log_call (CreateIndex name dim)
                          (set_indexes (<[name := mkIndex dim metric sl ∅]> (indexes p)) p))
            end
       else (Raise "Pinecone API unreachable", p).

(** The [spec] of the index to create: [ServerlessSpec(cloud='aws',
    region='us-east-1')], or [PodSpec()]; the latter is built without its
    required [environment] and raises [TypeError]. *)
Definition index_spec (use_serverless : bool) : M Pinecone bool :=
  if use_serverless then ret true
  else raise "PodSpec.__init__() missing 1 required positional argument: 'environment'".

(** [setup_pinecone] of [vectorstore.py].  [current_dim] is [None] when the
    index is absent or [describe_index] raised (a warning is printed); the
    test [current_dim and current_dim != embedding_dim] is false for [None]
    and for [0]. *)
Definition setup_pinecone (index_name : string) (embedding_dim : nat)
    (metric : string) (use_serverless : bool) : M Pinecone unit :=
  try_except
    (let* names := list_indexes in
     let index_exists := bool_decide (index_name ∈ names) in
     let* current_dim :=
       (if index_exists
        then try_except
               (let* d := describe_index index_name in ret (Some d))
               (λ _, ret None)
        else ret None) in
     let mismatch :=
       index_exists &&
       match current_dim with
       | Some d => negb (d =? 0) && negb (d =? embedding_dim)
       | None => false
       end in
     let* index_exists :=
       (if mismatch
        then let* _ := delete_index index_name in ret false
        else ret index_exists) in
     if negb index_exists
     then let* spec := index_spec use_serverless in
          create_index index_name embedding_dim metric spec
     else ret tt)
    (λ e, raise ("Failed to setup Pinecone: " +:+ e)).

(** The index exists and [setup_pinecone] finds no dimension to replace it
    for: nothing is deleted and nothing has to be created. *)
Definition index_kept (index_name : string) (embedding_dim : nat) (p : Pinecone) : bool :=
  match indexes p !! index_name with
  | Some ix =>
      negb (describe_ok p && negb (dimension ix =? 0) && negb (dimension ix =? embedding_dim))
  | None => false
  end.

(** [os.makedirs(directory, exist_ok=True)] where it returns: the directory
    exists afterwards, with the files it had.  The [FileExistsError] of a
    path that is an existing file is not modelled. *)
Definition makedirs (directory : string) : M Disk unit :=
  modify (λ d, match dirs d !! directory with
               | Some _ => d
               | None => mkDisk (<[directory := ∅]> (dirs d)) (next_uuid d)
               end).

(** [Chroma(index_name, embedding_function, persist_directory)] where it
    returns: the collection of that name in that directory is opened, and
    created empty when there is none.  The names the library refuses are not
    modelled. *)
Definition Chroma (index_name persist_directory : string) : M World unit :=
  modify (λ w,
    match chroma w !! (persist_directory, index_name) with
    | Some _ => w
    | None =>
        mkWorld (disk w) (pinecone w)
          (<[(persist_directory, index_name) := mkCollection None ∅]> (chroma w))
          (ledgers w)
    end).

(** [if not x: x = default], for a string argument that may be [None]. *)
Definition or_default (x : option string) (default : string) : string :=
  match x with
  | Some (String c r) => String c r
  | _ => default
  end.

(** [setup_chroma] of [vectorstore.py]. *)
Definition setup_chroma (index_name : string) (persist_directory : option string)
  : M World unit :=
  let persist_directory := or_default persist_directory "./.cache/database" in
  let* _ := lift_disk (makedirs persist_directory) in
  Chroma index_name persist_directory.

(** [config['embedding_model'].get('dimensions', 1536)] *)
Definition embedding_dim (config : Config) : nat :=
  default 1536 (dimensions config).

(** [f'{db_name}/{index_name}'] *)
Definition namespace (db_name index_name : string) : string :=
  db_name +:+ "/" +:+ index_name.

(** [f'sqlite:///{self.cache_dir}/record_manager_cache.sql'] *)
Definition db_url (cache_dir : string) : string :=
  "sqlite:///" +:+ cache_dir +:+ "/record_manager_cache.sql".

(** [SQLRecordManager(namespace, db_url).create_schema()]: the table of the
    namespace exists afterwards; its rows are kept. *)
Definition create_schema (url ns : string) : M World unit :=
  modify (λ w,
    match ledgers w !! (url, ns) with
    | Some _ => w
    | None => mkWorld (disk w) (pinecone w) (chroma w) (<[(url, ns) := ∅]> (ledgers w))
    end).

(** [VectorDB.__init__] of [vectorstore.py]. *)
Definition VectorDB_init (config : Config) (db_name index_name : string)
    (cache_dir : option string) : M World VectorDB :=
  let cache_dir := or_default cache_dir "./.cache/database" in
  let* _ := lift_disk (makedirs cache_dir) in
  let embedding_dim := embedding_dim config in
  let* _ :=
    (if decide (db_name = "pinecone")
     then lift_pinecone (setup_pinecone index_name embedding_dim "cosine" true)
     else setup_chroma index_name (Some cache_dir)) in
  let* _ := create_schema (db_url cache_dir) (namespace db_name index_name) in
  ret (mkVectorDB db_name index_name cache_dir).

End Backend.

(** ** [VectorDB.index] *)

Module Indexing.
Import Extract Chunker Backend.

(** The vectors of [self.vectorstore]: those of the Pinecone index or of the
    Chroma collection the object was set up on. *)
Definition read_vectors (self : VectorDB) (w : World) : option (gmap ChunkId VectorRecord) :=
  if decide (db_name self = "pinecone")
  then vectors <$> indexes (pinecone w) !! index_name self
  else chroma_vectors <$> chroma w !! (cache_dir self, index_name self).

(** The rows of [self.record_manager]. *)
Definition read_ledger (self : VectorDB) (w : World) : option (gmap ChunkId LedgerEntry) :=
  ledgers w !! (db_url (cache_dir self), namespace (db_name self) (index_name self)).

Definition set_vectors (vs : gmap ChunkId VectorRecord) (ix : PineconeIndex) : PineconeIndex :=
  mkIndex (dimension ix) (metric ix) (serverless ix) vs.

Definition write_vectors (self : VectorDB) (vs : gmap ChunkId VectorRecord) (w : World) : World :=
  if decide (db_name self = "pinecone")
  then mkWorld (disk w)
         (set_indexes (alter (set_vectors vs) (index_name self) (indexes (pinecone w)))
            (pinecone w))
         (chroma w) (ledgers w)
  else mkWorld (disk w) (pinecone w)
         (alter (λ c, mkCollection (chroma_dim c) vs)
            (cache_dir self, index_name self) (chroma w))
         (ledgers w).

Definition write_ledger (self : VectorDB) (l : gmap ChunkId LedgerEntry) (w : World) : World :=
  mkWorld (disk w) (pinecone w) (chroma w)
    (<[(db_url (cache_dir self), namespace (db_name self) (index_name self)) := l]> (ledgers w)).

(** [os.listdir], [os.remove], [os.rmdir] *)
Definition listdir (directory : string) : M Disk (list string) :=
  λ d, match dirs d !! directory with
       | Some files => (Ok (elements (dom files)), d)
       | None => (Raise "[Errno 2] No such file or directory", d)
       end.

Definition remove (directory file : string) : M Disk unit :=
  modify (λ d, mkDisk (alter (delete file) directory (dirs d)) (next_uuid d)).

Definition rmdir (directory : string) : M Disk unit :=
  λ d, match dirs d !! directory with
       | Some files =>
           if decide (files = ∅)
           then (Ok tt, mkDisk (delete directory (dirs d)) (next_uuid d))
           else (Raise "[Errno 39] Directory not empty", d)
       | None => (Raise "[Errno 2] No such file or directory", d)
       end.

Section Index.
(** Library calls of [VectorDB.index]: the directory loader, the splitter,
    and the indexing routine called with [cleanup='full'] and
    [source_id_key='source'] on the record manager and the vector store of
    the object. *)
Variable loader : string → gmap string bytes → result (list Document).
Variable split_documents : nat → nat → list Document → result (list Document).
Variable index : list Document → M State Counts.

(** [load_pdf_directory] of [pdf_handler.py] *)
Definition load_pdf_directory (directory : string) : M Disk (list Document) :=
  λ d, match dirs d !! directory with
       | Some files => (loader directory files, d)
       | None => (Raise "[Errno 2] No such file or directory", d)
       end.

(** The call [index(docs_source=chunks, record_manager=self.record_manager,
    vector_store=self.vectorstore, cleanup='full', source_id_key='source')]. *)
Definition call_index (self : VectorDB) (chunks : list Document) : M World Counts :=
  λ w, match read_ledger self w, read_vectors self w with
       | Some l, Some vs =>
           let '(r, s') := index chunks (mkState l vs) in
           (r, write_ledger self (ledger s') (write_vectors self (vstore s') w))
       | _, _ => (Raise "collection or ledger not found", w)
       end.

(** [VectorDB.index] of [vectorstore.py]. *)
Definition VectorDB_index (self : VectorDB) (uploaded_file : PyArg) : M World unit :=
  try_except
    (let* directory := lift_disk (extract_pdf uploaded_file) in
     let* docs := lift_disk (load_pdf_directory directory) in
     let* chunks := lift_result (split_pdf split_documents docs) in
     let* _ := call_index self chunks in
     let* files := lift_disk (listdir directory) in
     let* _ := lift_disk (for_each files (remove directory)) in
     lift_disk (rmdir directory))
    (λ e, raise ("Failed to index document: " +:+ e)).
End Index.

End Indexing.

(** ** The knowledge-base update of [app.py] *)

Module App.

Section Main.
(** [OpenAIChain], [OpenAIRAGChain] and its [update_chain] are imported
    from [src/openai_chain.py]; they are parameters of the update, acting on
    a world [W]. *)
Context {W Chain : Type}.
Variable OpenAIChain : M W Chain.
Variable OpenAIRAGChain : PyFile → string → M W Chain.
Variable update_chain : Chain → PyFile → M W unit.

(** The arguments [st.cache_resource] keys [load_chain] on ([_chat_memory]
    is excluded by its underscore). *)
Definition CacheKey : Type := bool * option PyFile * string.

(** The part of [st.session_state], and of the resource cache, that the
    chain loading and the knowledge-base update of [main] read. *)
Record Session := mkSession {
  pdf_chat : bool;
  uploaded_file : list PyFile;
  knowledge_change : bool;
  cache : list (CacheKey * option Chain)
}.

(** What the step leaves behind and shows. *)
Record Outcome := mkOutcome {
  knowledge_change' : bool;
  cache' : list (CacheKey * option Chain);
  messages : list string
}.

Definition cache_lookup (k : CacheKey) (c : list (CacheKey * option Chain))
  : option (option Chain) :=
  snd <$> List.find (λ e, bool_decide (e.1 = k)) c.

(** The body of [load_chain]. *)
Definition load_chain_body (pdf_chat : bool) (uploaded_file : option PyFile)
    (db_type : string) : M W (option Chain) :=
  try_except
    (match pdf_chat, uploaded_file with
     | true, Some f => let* c := OpenAIRAGChain f db_type in ret (Some c)
     | _, _ => let* c := OpenAIChain in ret (Some c)
     end)
    (λ _, ret None).

(** [load_chain] under [@st.cache_resource]. *)
Definition load_chain (c : list (CacheKey * option Chain)) (pdf_chat : bool)
    (uploaded_file : option PyFile) (db_type : string)
  : M W (option Chain * list (CacheKey * option Chain)) :=
  let k := (pdf_chat, uploaded_file, db_type) in
  match cache_lookup k c with
  | Some r => ret (r, c)
  | None => let* r := load_chain_body pdf_chat uploaded_file db_type in
            ret (r, (k, r) :: c)
  end.

(** Lines 141 to 165 of [main]: the chain is loaded for
    [st.session_state.uploaded_file[0]] (or [None]); when the knowledge
    base has changed and there are uploads, [update_chain] is called on
    [uploaded_pdf[0]]. *)
Definition main_update (db_type : string) (st : Session) : M W Outcome :=
  try_except
    (let* lc := load_chain (cache st) (pdf_chat st) (head (uploaded_file st)) db_type in
     match lc.1, uploaded_file st with
     | None, _ =>
         ret (mkOutcome (knowledge_change st) lc.2
                ["Failed to initialize chat chain. Please check your configuration.";
                 "If you're having issues with Pinecone, try switching to Chroma in the sidebar."])
     | Some llm_chain, first :: _ =>
         if knowledge_change st
         then try_except
                (let* _ := update_chain llm_chain first in
                 ret (mkOutcome false lc.2 ["Knowledge base updated successfully!"]))
                (λ e, ret (mkOutcome false lc.2
                             (("Failed to update knowledge base: " +:+ e)
                              :: if decide (db_type = "pinecone")
                                 then ["This might be due to Pinecone configuration issues. Try switching to Chroma in the sidebar."]
                                 else [])))
         else ret (mkOutcome (knowledge_change st) lc.2 [])
     | Some _, [] => ret (mkOutcome (knowledge_change st) lc.2 [])
     end)
    (λ e, ret (mkOutcome (knowledge_change st) (cache st) ["Application error: " +:+ e])).

(** The session after the uploader returned the files [fs]. *)
Definition with_uploads (fs : list PyFile) (st : Session) : Session :=
  mkSession (pdf_chat st) fs (knowledge_change st) (cache st).

End Main.

(** A chain that only records, in order, the files it is handed: at
    construction ([true]) and by [update_chain] ([false]). *)
Definition log_plain : M (list (bool * PyFile)) unit := ret tt.
Definition log_rag (f : PyFile) (db_type : string) : M (list (bool * PyFile)) unit :=
  modify (λ log, log ++ [(true, f)]).
Definition log_update (c : unit) (f : PyFile) : M (list (bool * PyFile)) unit :=
  modify (λ log, log ++ [(false, f)]).

(** A call that reaches the chain classes of [src/openai_chain.py], with the
    file it is handed: [OpenAIChain(...)], [OpenAIRAGChain(...,
    uploaded_file=f, db_type=d)] and [llm_chain.update_chain(f)]. *)
Inductive ChainCall :=
| BuildPlain
| BuildRag (f : PyFile) (d : string)
| UpdateChain (f : PyFile).

(** The computation [m] in a world that also keeps the calls made so far:
    the call [c] is recorded, whether [m] returns or raises. *)
Definition traced {W A} (c : ChainCall) (m : M W A) : M (W * list ChainCall) A :=
  λ s, ((m s.1).1, ((m s.1).2, s.2 ++ [c])).

Section Traced.
Context {W Chain : Type}.
Variable OpenAIChain : M W Chain.
Variable OpenAIRAGChain : PyFile → string → M W Chain.
Variable update_chain : Chain → PyFile → M W unit.

(** The call the body of [load_chain] makes. *)
Definition build_call (pdf_chat : bool) (uploaded_file : option PyFile) (db_type : string)
  : ChainCall :=
  match pdf_chat, uploaded_file with
  | true, Some f => BuildRag f db_type
  | _, _ => BuildPlain
  end.

(** The calls [load_chain] makes: none when the arguments are in the cache,
    the construction otherwise. *)
Definition build_calls (c : list (CacheKey * option Chain)) (pdf_chat : bool)
    (uploaded_file : option PyFile) (db_type : string) : list ChainCall :=
  match cache_lookup (pdf_chat, uploaded_file, db_type) c with
  | Some _ => []
  | None => [build_call pdf_chat uploaded_file db_type]
  end.

(** [main_update] with every call of the chain classes recorded. *)
Definition traced_main_update (db_type : string) (st : @Session Chain)
  : M (W * list ChainCall) (@Outcome Chain) :=
  main_update (traced BuildPlain OpenAIChain)
    (λ f d, traced (BuildRag f d) (OpenAIRAGChain f d))
    (λ c f, traced (UpdateChain f) (update_chain c f))
    db_type st.
End Traced.

End App.

(** ** Sample worlds *)

Module Samples.
Import Reconciler Backend Indexing.

Definition empty_world : World :=
  mkWorld (mkDisk ∅ 0) (mkPinecone true true ∅ []) ∅ ∅.

Definition small_config : Config := mkConfig "text-embedding-3-small" (Some 1536).
Definition large_config : Config := mkConfig "text-embedding-3-large" (Some 3072).

(** A loader that reads every file of the directory as one page of text. *)
Definition page_loader (directory : string) (files : gmap string bytes)
  : result (list Document) :=
  Ok ((λ nb : string * bytes,
         mkDocument (String.string_of_list_byte nb.2) (directory +:+ "/" +:+ nb.1) 0)
        <$> map_to_list files).

(** The indexing routine, as the reconciler of the spec run at time [t]. *)
Definition reconcile_at (t : nat) (chunks : list Document) : M State Counts :=
  λ s, match reconcile ex_digest ex_embed "docs" chunks Full t s with
       | Ok (s', n) => (Ok n, s')
       | Raise msg => (Raise msg, s)
       end.

Definition docs_db : VectorDB := mkVectorDB "chroma" "docs" "./.cache/database".

(** The world after [VectorDB('chroma', 'docs')] on an empty machine. *)
Definition chroma_world : World :=
  (VectorDB_init small_config "chroma" "docs" None empty_world).2.

Definition good_pdf : PyFile := UploadedFile "good.pdf" [x68; x69].

(** A Chroma collection that holds a vector of 1536 components. *)
Definition old_vector : VectorRecord := mkVector [] "alpha" ("a.pdf", 0).
Definition chroma_1536 : World :=
  mkWorld (mkDisk ∅ 0) (mkPinecone true true ∅ [])
    {[ ("./.cache/database", "docs") :=
         mkCollection (Some 1536) {[ ("a.pdf", "alpha") := old_vector ]} ]}
    ∅.

(** A Pinecone service with an index of 1536 dimensions. *)
Definition pinecone_1536 : World :=
  mkWorld (mkDisk ∅ 0)
    (mkPinecone true true
       {[ "docs" := mkIndex 1536 "cosine" true {[ ("a.pdf", "alpha") := old_vector ]} ]} [])
    ∅ ∅.

End Samples.

(** ** The rest of [pdf_handler.py] *)

Module PdfHandler.
Import Extract Backend.

(** [create_cache_dir] of [pdf_handler.py]: [if not directory: directory =
    './.cache'], then [os.makedirs(directory, exist_ok=True)]. *)
Definition create_cache_dir (directory : option string) : M Disk string :=
  let directory := or_default directory "./.cache" in
  let* _ := makedirs directory in
  ret directory.

(** The loop of [extract_pdf] can write the file: it holds bytes, and the name
    it is written under has no path separator. *)
Definition writable (file : PyFile) : bool :=
  match file with
  | UploadedFile name _ => negb (has_slash name)
  | RawBytes _ => true
  | OtherObject => false
  end.

End PdfHandler.

(** ** The callbacks and the script of [app.py] *)

Module Ui.
Import App.

(** [os.environ]; [os.environ.get(k)] is truthy when [k] is set to a string
    that is not empty. *)
Definition env_set (env : gmap string string) (k : string) : bool :=
  match env !! k with
  | Some (String _ _) => true
  | _ => false
  end.

(** [check_environment_variables] of [app.py]; [database_type] is
    [st.session_state.get('database_type', 'pinecone')] before the default. *)
Definition check_environment_variables (env : gmap string string)
    (database_type : option string) : list string :=
  (if env_set env "OPENAI_API_KEY" then [] else ["OPENAI_API_KEY"])
  ++ (if decide (default "pinecone" database_type = "pinecone")
      then (if env_set env "PINECONE_API_KEY" then [] else ["PINECONE_API_KEY"])
      else []).

(** [', '.join(xs)] *)
Fixpoint join_comma (xs : list string) : string :=
  match xs with
  | [] => ""
  | [x] => x
  | x :: xs' => x +:+ ", " +:+ join_comma xs'
  end.

Section Callbacks.
Context {Chain : Type}.

(** [clear_cache]: [st.cache_resource.clear()] *)
Definition clear_cache (st : @Session Chain) : @Session Chain :=
  mkSession (pdf_chat st) (uploaded_file st) (knowledge_change st) [].

Definition set_pdf_chat (b : bool) (st : @Session Chain) : @Session Chain :=
  mkSession b (uploaded_file st) (knowledge_change st) (cache st).

Definition set_knowledge_change (b : bool) (st : @Session Chain) : @Session Chain :=
  mkSession (pdf_chat st) (uploaded_file st) b (cache st).

Definition set_cache (c : list (CacheKey * option Chain)) (st : @Session Chain)
  : @Session Chain :=
  mkSession (pdf_chat st) (uploaded_file st) (knowledge_change st) c.

(** [file_uploader_change] of [app.py]; it runs once the uploader has stored
    the new list of files in [st.session_state.uploaded_file]. *)
Definition file_uploader_change (st : @Session Chain) : @Session Chain :=
  match uploaded_file st with
  | _ :: _ =>
      let st := if pdf_chat st then st else set_pdf_chat true (clear_cache st) in
      set_knowledge_change true st
  | [] => set_pdf_chat false (clear_cache st)
  end.

(** [toggle_pdf_chat_change] of [app.py]; it runs once the toggle has stored
    its new value in [st.session_state.pdf_chat]. *)
Definition toggle_pdf_chat_change (st : @Session Chain) : @Session Chain :=
  let st := clear_cache st in
  match pdf_chat st, uploaded_file st with
  | true, _ :: _ => set_knowledge_change true st
  | _, _ => st
  end.

(** [database_change] of [app.py]. *)
Definition database_change (st : @Session Chain) : @Session Chain :=
  let st := clear_cache st in
  match pdf_chat st, uploaded_file st with
  | true, _ :: _ => set_knowledge_change true st
  | _, _ => st
  end.

(** The rest of [st.session_state] that [main] reads: the session above, the
    input flags ([send_input] is [None] while the key is not in the session
    state) and the selected database. *)
Record UiState := mkUi {
  session : @Session Chain;
  send_input : option bool;
  user_question : string;
  user_input : string;
  database_type : option string
}.

(** [clear_input_field] of [app.py]. *)
Definition clear_input_field (ui : UiState) : UiState :=
  mkUi (session ui) (send_input ui) (user_input ui) "" (database_type ui).

(** [set_send_input] of [app.py]. *)
Definition set_send_input (ui : UiState) : UiState :=
  clear_input_field
    (mkUi (session ui) (Some true) (user_question ui) (user_input ui) (database_type ui)).

(** [initial_session_state] of [app.py]. *)
Definition initial_session_state (ui : UiState) : UiState :=
  mkUi (set_knowledge_change false (session ui)) (Some false)
    (user_question ui) (user_input ui) (database_type ui).

(** The messages [main] shows when variables are missing. *)
Definition missing_messages (missing_vars : list string) : list string :=
  ["Missing required environment variables: " +:+ join_comma missing_vars;
   "Please set these environment variables in your .env file or system environment."]
  ++ (if decide ("PINECONE_API_KEY" ∈ missing_vars)
      then ["💡 Tip: You can switch to Chroma (local database) in the sidebar to avoid needing Pinecone API key."]
      else []).

(** What the knowledge-base update of [main] shows for the result of
    [update_chain]. *)
Definition update_messages (db_type : string) (r : result unit) : list string :=
  match r with
  | Ok _ => ["Knowledge base updated successfully!"]
  | Raise e =>
      ("Failed to update knowledge base: " +:+ e)
      :: if decide (db_type = "pinecone")
         then ["This might be due to Pinecone configuration issues. Try switching to Chroma in the sidebar."]
         else []
  end.

Section Script.
(** The chain classes of [src/openai_chain.py] are parameters, as for
    [main_update]; [run] is [llm_chain.run(user_input=...)]. *)
Context {W : Type}.
Variable OpenAIChain : M W Chain.
Variable OpenAIRAGChain : PyFile → string → M W Chain.
Variable update_chain : Chain → PyFile → M W unit.
Variable run : Chain → string → M W string.

(** The knowledge-base update of [main] (lines 155 to 165) for a loaded
    chain: the new value of [knowledge_change] and the messages shown. *)
Definition update_knowledge (db_type : string) (llm_chain : Chain) (st : @Session Chain)
  : M W (bool * list string) :=
  match knowledge_change st, uploaded_file st with
  | true, first :: _ =>
      try_except
        (let* _ := update_chain llm_chain first in
         ret (false, ["Knowledge base updated successfully!"]))
        (λ e, ret (false,
                   ("Failed to update knowledge base: " +:+ e)
                   :: if decide (db_type = "pinecone")
                      then ["This might be due to Pinecone configuration issues. Try switching to Chroma in the sidebar."]
                      else []))
  | _, _ => ret (knowledge_change st, [])
  end.

(** The handling of the user input of [main] (lines 168 to 178): the
    question is answered or the failure is shown, and [finally] the question
    and the flag are reset.  It returns the new question and flag and the
    messages shown. *)
Definition handle_input (llm_chain : Chain) (ui : UiState)
  : M W (option bool * string * list string) :=
  match send_input ui, user_question ui with
  | Some true, String c q =>
      let* shown :=
        try_except
          (let* llm_response := run llm_chain (String c q) in
           ret [String c q; llm_response])
          (λ e, ret [String c q; "Failed to get response: " +:+ e]) in
      ret (Some false, "", shown)
  | _, _ => ret (send_input ui, user_question ui, [])
  end.

(** What the knowledge-base update leaves and shows once [update_chain] has
    run with result [r]: the flag is cleared in both cases. *)
Definition updated (db_type : string) (c' : list (CacheKey * option Chain))
    (r : result unit * W) : result (@Outcome Chain) * W :=
  match r with
  | (Ok _, w2) => (Ok (mkOutcome false c' ["Knowledge base updated successfully!"]), w2)
  | (Raise e, w2) =>
      (Ok (mkOutcome false c'
             (("Failed to update knowledge base: " +:+ e)
              :: if decide (db_type = "pinecone")
                 then ["This might be due to Pinecone configuration issues. Try switching to Chroma in the sidebar."]
                 else [])), w2)
  end.

(** [main] of [app.py], from the check of the environment on: the session
    state it leaves and the messages it shows. *)
Definition main (env : gmap string string) (ui : UiState) : M W (UiState * list string) :=
  let db_type := default "pinecone" (database_type ui) in
  let missing_vars := check_environment_variables env (database_type ui) in
  match missing_vars with
  | _ :: _ => ret (ui, missing_messages missing_vars)
  | [] =>
      let ui := match send_input ui with
                | None => initial_session_state ui
                | Some _ => ui
                end in
      try_except
        (let* lc := load_chain OpenAIChain OpenAIRAGChain (cache (session ui))
                      (pdf_chat (session ui)) (head (uploaded_file (session ui))) db_type in
         match lc.1 with
         | None =>
             ret (mkUi (set_cache lc.2 (session ui)) (send_input ui) (user_question ui)
                    (user_input ui) (database_type ui),
                  ["Failed to initialize chat chain. Please check your configuration.";
                   "If you're having issues with Pinecone, try switching to Chroma in the sidebar."])
         | Some llm_chain =>
             let* kc := update_knowledge db_type llm_chain (session ui) in
             let* inp := handle_input llm_chain ui in
             ret (mkUi (set_knowledge_change kc.1 (set_cache lc.2 (session ui)))
                    inp.1.1 inp.1.2 (user_input ui) (database_type ui),
                  kc.2 ++ inp.2)
         end)
        (λ e, ret (ui, ["Application error: " +:+ e;
                        "If you're experiencing issues, try restarting the application or check your API keys."]))
  end.

End Script.
End Callbacks.

End Ui.

(** ** Theorems: the chunker *)

Module ChunkerFacts.
Import Chunker.

(** C4: for the empty list of documents [split_pdf] returns the empty list of
    chunks; it does not raise, whatever the splitter would do. *)
Theorem split_pdf_empty (split_documents : nat → nat → list Document → result (list Document)) :
  split_pdf split_documents [] = Ok [].
Proof. reflexivity. Qed.

Lemma substring_length (s : string) (n m : nat) :
  n + m ≤ String.length s → String.length (String.substring n m s) = m.
Proof.
  revert n m. induction s as [|c s IH]; intros [|n] [|m]; simpl; try lia.
  - intros. f_equal. apply IH. lia.
  - intros. apply IH. lia.
  - intros. apply IH. lia.
Qed.

Lemma chunk_of_length (d : Document) (a b : nat) :
  a ≤ b → b ≤ String.length (page_content d) →
  String.length (page_content (chunk_of d (a, b))) = b - a.
Proof. intros. unfold chunk_of. cbn [page_content fst snd]. apply substring_length. lia. Qed.

Lemma window_spans_1000 :
  window_spans chunk_size chunk_overlap 1000 = [(0, 512); (448, 960); (896, 1000)].
Proof. vm_compute. reflexivity. Qed.

(** C5: a document of 1000 characters, chunked with window 512 and overlap
    64, gives exactly three chunks, in document order, whose character spans
    are [0,512), [448,960) and [896,1000). *)
Theorem split_1000_three_chunks (d : Document) :
  String.length (page_content d) = 1000 →
  window_spans chunk_size chunk_overlap (String.length (page_content d))
    = [(0, 512); (448, 960); (896, 1000)]
  ∧ split_pdf split_documents_spec [d]
    = Ok [chunk_of d (0, 512); chunk_of d (448, 960); chunk_of d (896, 1000)]
  ∧ String.length (page_content (chunk_of d (0, 512))) = 512
  ∧ String.length (page_content (chunk_of d (448, 960))) = 512
  ∧ String.length (page_content (chunk_of d (896, 1000))) = 104.
Proof.
  intros Hlen. split_and!.
  - rewrite Hlen. exact window_spans_1000.
  - unfold split_pdf, split_documents_spec. simpl.
    unfold split. rewrite Hlen, window_spans_1000. reflexivity.
  - rewrite chunk_of_length; lia.
  - rewrite chunk_of_length; lia.
  - rewrite chunk_of_length; lia.
Qed.

Lemma split_1000_three_chunks_witness :
  String.length (page_content doc1000) = 1000
  ∧ window_spans chunk_size chunk_overlap (String.length (page_content doc1000))
    = [(0, 512); (448, 960); (896, 1000)]
  ∧ split_pdf split_documents_spec [doc1000]
    = Ok [chunk_of doc1000 (0, 512); chunk_of doc1000 (448, 960);
          chunk_of doc1000 (896, 1000)]
  ∧ String.length (page_content (chunk_of doc1000 (0, 512))) = 512
  ∧ String.length (page_content (chunk_of doc1000 (448, 960))) = 512
  ∧ String.length (page_content (chunk_of doc1000 (896, 1000))) = 104.
Proof.
  split; [vm_compute; reflexivity |].
  apply (split_1000_three_chunks doc1000). vm_compute. reflexivity.
Defined.

End ChunkerFacts.

(** ** Theorems: the reconciler *)

Module ReconcilerFacts.
Import Reconciler.

Section Facts.
Variable digest : string → Digest.

Implicit Types (l : gmap ChunkId LedgerEntry) (vs : gmap ChunkId VectorRecord).
Implicit Types (k : ChunkId) (c : Document) (C : list Document) (s : State).

Lemma ledger_update_lookup g C t l k :
  ledger_update digest g C t l !! k
  = if decide (k ∈ ids digest C) then Some (mkEntry k.2 g t) else l !! k.
Proof.
  unfold ledger_update, ids.
  revert l. induction C as [|c C IH]; intros l.
  - rewrite decide_False by apply not_elem_of_nil. done.
  - cbn [foldl]. rewrite IH, fmap_cons.
    destruct (decide (k ∈ chunk_id digest <$> C)) as [Hin|Hnin].
    + rewrite decide_True by (apply elem_of_cons; by right). done.
    + destruct (decide (chunk_id digest c = k)) as [<-|Hne].
      * rewrite decide_True by (apply elem_of_cons; by left).
        by rewrite lookup_insert_eq.
      * rewrite lookup_insert_ne by done.
        rewrite decide_False; [done|].
        intros [?|?]%elem_of_cons; congruence.
Qed.

Lemma ledger_delete_lookup (keys : gset ChunkId) l k :
  ledger_delete keys l !! k = if decide (k ∈ keys) then None else l !! k.
Proof.
  unfold ledger_delete. apply option_eq; intros e.
  rewrite map_lookup_filter_Some; simpl.
  destruct (decide (k ∈ keys)); naive_solver.
Qed.

Lemma vs_delete_lookup (keys : gset ChunkId) vs k :
  vs_delete keys vs !! k = if decide (k ∈ keys) then None else vs !! k.
Proof.
  unfold vs_delete. apply option_eq; intros e.
  rewrite map_lookup_filter_Some; simpl.
  destruct (decide (k ∈ keys)); naive_solver.
Qed.

Lemma elem_of_list_keys g t l k :
  k ∈ ledger_list_keys g t l
  ↔ ∃ e, l !! k = Some e ∧ group_id e = g ∧ last_seen e < t.
Proof.
  unfold ledger_list_keys. rewrite elem_of_dom. unfold is_Some.
  setoid_rewrite map_lookup_filter_Some. unfold stale_row; simpl.
  naive_solver.
Qed.

Lemma upsert_all_is_Some (es : list (Document * list Z)) vs k :
  is_Some (foldl (vs_upsert digest) vs es !! k)
  ↔ is_Some (vs !! k) ∨ k ∈ ids digest (es.*1).
Proof.
  revert vs. induction es as [|[c v] es IH]; intros vs; simpl.
  - rewrite elem_of_nil. tauto.
  - rewrite IH. unfold vs_upsert; simpl. unfold ids. rewrite elem_of_cons.
    destruct (decide (chunk_id digest c = k)) as [<-|Hne].
    + rewrite lookup_insert_eq. split; [intros _; right; by left | intros _; left; eauto].
    + rewrite lookup_insert_ne by done. naive_solver.
Qed.

Lemma upsert_all_other (es : list (Document * list Z)) vs k :
  k ∉ ids digest (es.*1) → foldl (vs_upsert digest) vs es !! k = vs !! k.
Proof.
  revert vs. induction es as [|[c v] es IH]; intros vs Hk; simpl; [done|].
  unfold ids in *. rewrite fmap_cons, fmap_cons in Hk. simpl in Hk.
  apply not_elem_of_cons in Hk as [Hne Hk].
  rewrite IH by done. unfold vs_upsert; simpl. by rewrite lookup_insert_ne.
Qed.

Lemma embed_all_fst embed C es :
  embed_all embed C = Ok es → es.*1 = C.
Proof.
  revert es. induction C as [|c C IH]; intros es; simpl.
  - by intros [= <-].
  - destruct (embed (page_content c)); [|done].
    destruct (embed_all embed C) as [es'|]; [|done].
    intros [= <-]. simpl. f_equal. by apply IH.
Qed.

(** What a completed run leaves in the two stores, key by key. *)
Lemma reconcile_inv embed g C mode t s s' n :
  reconcile digest embed g C mode t s = Ok (s', n) →
  let fresh := filter (λ c, unchanged digest (ledger s) c = false) C in
  let l1 := ledger_update digest g C t (ledger s) in
  let stale := stale_keys digest g C mode t l1 in
  (∀ k, ledger s' !! k = if decide (k ∈ stale) then None else l1 !! k)
  ∧ (∀ k, is_Some (vstore s' !! k)
          ↔ ((k ∉ stale) ∧ (is_Some (vstore s !! k) ∨ k ∈ ids digest fresh)))
  ∧ (∀ k, k ∉ stale → k ∉ ids digest fresh → vstore s' !! k = vstore s !! k)
  ∧ n = mkCounts (length fresh) (length C - length fresh) (size stale).
Proof.
  unfold reconcile. intros H.
  destruct (embed_all embed _) as [es|] eqn:Hes; [|done].
  apply embed_all_fst in Hes. injection H as <- <-. simpl.
  split_and!; [| | |done].
  - intros k. apply ledger_delete_lookup.
  - intros k. rewrite vs_delete_lookup. case_decide as Hk.
    + split; [by intros [? ?] | by intros [? _]].
    + rewrite upsert_all_is_Some, Hes. tauto.
  - intros k Hk Hf. rewrite vs_delete_lookup, decide_False by done.
    apply upsert_all_other. by rewrite Hes.
Qed.

Lemma elem_of_ids C k : k ∈ ids digest C ↔ ∃ c, c ∈ C ∧ chunk_id digest c = k.
Proof. unfold ids. rewrite list_elem_of_fmap. naive_solver. Qed.

Lemma unchanged_is_Some l c :
  unchanged digest l c = true → is_Some (l !! chunk_id digest c).
Proof.
  unfold unchanged. destruct (l !! chunk_id digest c) as [e|]; [eauto|done].
Qed.

Lemma unchanged_row l c g t :
  l !! chunk_id digest c = Some (mkEntry (chunk_id digest c).2 g t) →
  unchanged digest l c = true.
Proof.
  unfold unchanged. intros ->. by apply bool_decide_eq_true.
Qed.

(** A key of the batch is in the store before the run, or the run embeds
    and upserts it. *)
Lemma batch_key_cases l C k :
  k ∈ ids digest C →
  is_Some (l !! k) ∨ k ∈ ids digest (filter (λ c, unchanged digest l c = false) C).
Proof.
  intros (c & Hc & <-)%elem_of_ids.
  destruct (unchanged digest l c) eqn:Hu.
  - left. by apply unchanged_is_Some.
  - right. apply elem_of_ids. exists c. split; [|done].
    by apply list_elem_of_filter.
Qed.

Lemma fresh_key_in_batch l C k :
  k ∈ ids digest (filter (λ c, unchanged digest l c = false) C) → k ∈ ids digest C.
Proof.
  intros (c & [_ Hc]%list_elem_of_filter & <-)%elem_of_ids.
  apply elem_of_ids. eauto.
Qed.

Lemma consistent_init : consistent init_state.
Proof. intros k. simpl. by rewrite !lookup_empty. Qed.

Lemma consistent_step embed g C mode t s s' n :
  consistent s →
  reconcile digest embed g C mode t s = Ok (s', n) →
  consistent s'.
Proof.
  intros Hs (Hl & Hv & _ & _)%reconcile_inv k.
  rewrite Hl, Hv.
  destruct (decide (k ∈ _)) as [Hst|Hst].
  - split; [by intros [? ?] | by intros [? _]].
  - rewrite ledger_update_lookup.
    destruct (decide (k ∈ ids digest C)) as [Hk|Hk].
    + split; [intros _ | eauto].
      split; [done|].
      destruct (batch_key_cases (ledger s) C k Hk) as [?|?]; [left; by apply Hs | by right].
    + split.
      * intros ?. split; [done|]. left. by apply Hs.
      * intros [_ [?|?%fresh_key_in_batch]]; [by apply Hs | done].
Qed.

(** C8: every completed reconciliation run, under any cleanup mode,
    preserves the invariant that a ledger entry exists for an id if and
    only if a vector with that id exists in the vector store. *)
Theorem reconcile_preserves_consistent embed g C mode t s s' n :
  consistent s →
  reconcile digest embed g C mode t s = Ok (s', n) →
  consistent s'.
Proof.
  intros Hs Hrun k.
  destruct (reconcile_inv _ _ _ _ _ _ _ _ Hrun) as (Hl & Hv & _ & _).
  rewrite Hl, Hv, ledger_update_lookup.
  set (stale := stale_keys digest g C mode t _).
  destruct (decide (k ∈ stale)) as [Hst|Hst].
  { split; [by intros [? ?] | by intros [? _]]. }
  destruct (decide (k ∈ ids digest C)) as [Hk|Hk].
  - (* a key of the batch: unchanged, so already stored, or upserted now *)
    split; [intros _ | eauto]. split; [done|].
    destruct (batch_key_cases (ledger s) C k Hk) as [Hold|Hnew].
    + left. by apply Hs.
    + by right.
  - (* any other key: in both stores before the run, or in neither *)
    split.
    + intros Hin. split; [done|]. left. by apply Hs.
    + intros [_ [Hin|Hnew]]; [by apply Hs|].
      by apply fresh_key_in_batch in Hnew.
Qed.

(** Hence the invariant holds after every history of runs from the empty
    stores. *)
Lemma consistent_after_runs embed runs : consistent (run_all digest embed runs init_state).
Proof.
  generalize consistent_init. generalize init_state.
  induction runs as [|r runs IH]; intros s Hs; [done|]. cbn [run_all].
  destruct (reconcile digest embed _ _ _ _ s) as [[s' n]|] eqn:Hr; [|by apply IH].
  apply IH. by eapply consistent_step.
Qed.

(** A key touched by the run is not stale in the updated ledger. *)
Lemma touched_not_stale g C mode t l k :
  k ∈ ids digest C →
  k ∉ stale_keys digest g C mode t (ledger_update digest g C t l).
Proof.
  intros Hk Hst.
  assert (k ∈ ledger_list_keys g t (ledger_update digest g C t l)) as He.
  { destruct mode; simpl in Hst; [done | set_solver | set_solver]. }
  apply elem_of_list_keys in He as (e & He & _ & Hlt).
  rewrite ledger_update_lookup, decide_True in He by done.
  injection He as <-. simpl in Hlt. lia.
Qed.

(** After a completed run every chunk of the batch has its vector. *)
Lemma batch_stored embed g C mode t s s' n k :
  consistent s →
  reconcile digest embed g C mode t s = Ok (s', n) →
  k ∈ ids digest C →
  is_Some (vstore s' !! k).
Proof.
  intros Hs (_ & Hv & _ & _)%reconcile_inv Hk.
  apply Hv. split; [by apply touched_not_stale|].
  destruct (batch_key_cases (ledger s) C k Hk) as [?|?]; [left; by apply Hs | by right].
Qed.

(** The ledger after a full run over a ledger that holds only older rows
    of the group: exactly the rows of the batch. *)
Lemma full_run_ledger embed g C t s s' n :
  only_group_older g t s →
  reconcile digest embed g C Full t s = Ok (s', n) →
  ∀ k, ledger s' !! k
       = if decide (k ∈ ids digest C) then Some (mkEntry k.2 g t) else None.
Proof.
  intros Hold (Hl & _)%reconcile_inv k. rewrite Hl.
  destruct (decide (k ∈ ids digest C)) as [Hk|Hk].
  - rewrite decide_False by (by apply touched_not_stale).
    by rewrite ledger_update_lookup, decide_True.
  - destruct (decide (k ∈ _)) as [|Hst]; [done|].
    rewrite ledger_update_lookup, decide_False by done.
    destruct (ledger s !! k) as [e|] eqn:He; [|done].
    exfalso. apply Hst. simpl. apply elem_of_list_keys. exists e.
    rewrite ledger_update_lookup, decide_False by done.
    destruct (Hold k e He). done.
Qed.

Lemma filter_unchanged_nil l C :
  (∀ c, c ∈ C → unchanged digest l c = true) →
  filter (λ c, unchanged digest l c = false) C = [].
Proof.
  induction C as [|c C IH]; intros Hall; [done|].
  rewrite filter_cons_False.
  - apply IH. intros c' Hc'. apply Hall, elem_of_cons. by right.
  - rewrite Hall by (apply elem_of_cons; by left). done.
Qed.

Lemma delete_nothing_ledger l : ledger_delete ∅ l = l.
Proof.
  apply map_eq; intros k. rewrite ledger_delete_lookup.
  by rewrite decide_False by set_solver.
Qed.

Lemma delete_nothing_vectors vs : vs_delete ∅ vs = vs.
Proof.
  apply map_eq; intros k. rewrite vs_delete_lookup.
  by rewrite decide_False by set_solver.
Qed.

(** C1, amended: when a completed full-cleanup run over [C] at
    [t1] started from a ledger whose rows of the group were older than
    [t1], the same run repeated at any [t2], with any embedding function,
    completes with [num_added = 0], [num_skipped = len(C)] and
    [num_deleted = 0]; it leaves the vector store as it is, and the ledger
    as it is but for [last_seen] of the rows of [C], which becomes [t2]. *)
Theorem reconcile_idempotent embed embed' g C t1 t2 s s1 n1 :
  group_older g t1 s →
  reconcile digest embed g C Full t1 s = Ok (s1, n1) →
  ∃ s2, reconcile digest embed' g C Full t2 s1 = Ok (s2, mkCounts 0 (length C) 0)
        ∧ vstore s2 = vstore s1
        ∧ ledger s2 = refresh (ids digest C) t2 (ledger s1).
Proof.
  intros Hold H1. pose proof H1 as (Hl & _)%reconcile_inv. simpl in Hl.
  assert (∀ k, k ∈ ids digest C → ledger s1 !! k = Some (mkEntry k.2 g t1)) as HA.
  { intros k Hk. rewrite Hl, decide_False by (by apply (touched_not_stale g C Full)).
    by rewrite ledger_update_lookup, decide_True. }
  assert (∀ k e, ledger s1 !! k = Some e → group_id e = g → k ∈ ids digest C) as HB.
  { intros k e He Hg. destruct (decide (k ∈ ids digest C)) as [|Hk]; [done|].
    exfalso. rewrite Hl in He.
    destruct (decide (k ∈ _)) as [|Hst]; [done|].
    apply Hst, elem_of_list_keys. exists e. split; [done|]. split; [done|].
    rewrite ledger_update_lookup, decide_False in He by done. eauto. }
  assert (ledger_list_keys g t2 (ledger_update digest g C t2 (ledger s1)) = ∅) as Hst.
  { apply set_eq; intros k. rewrite elem_of_list_keys. split; [|set_solver].
    intros (e & He & Hg & Hlt). rewrite ledger_update_lookup in He.
    destruct (decide (k ∈ ids digest C)) as [Hk|Hk].
    - injection He as <-. simpl in Hlt. lia.
    - destruct Hk. eauto. }
  unfold reconcile. rewrite filter_unchanged_nil; last first.
  { intros c Hc. apply (unchanged_row _ _ g t1), HA, elem_of_ids. eauto. }
  cbn [embed_all foldl stale_keys length]. rewrite Hst.
  rewrite delete_nothing_ledger, delete_nothing_vectors, size_empty, Nat.sub_0_r.
  eexists. split; [reflexivity|]. split; [done|]. simpl.
  apply map_eq; intros k. unfold refresh.
  rewrite ledger_update_lookup, map_lookup_imap.
  destruct (decide (k ∈ ids digest C)) as [Hk|Hk].
  - by rewrite (HA k Hk).
  - by destruct (ledger s1 !! k).
Qed.

(** C2: from a consistent state whose ledger holds only rows of the group
    older than [t1], a full-cleanup run over [C1] at [t1] followed by a
    full-cleanup run over [C2] at a later [t2], where no id of [C1] is an
    id of [C2], leaves the vector store with exactly the ids of [C2] and
    the ledger with no row for any chunk of [C1]. *)
Theorem full_cleanup_replaces embed g C1 C2 t1 t2 s s1 n1 s2 n2 :
  consistent s →
  only_group_older g t1 s →
  t1 < t2 →
  (∀ k, k ∈ ids digest C1 → k ∉ ids digest C2) →
  reconcile digest embed g C1 Full t1 s = Ok (s1, n1) →
  reconcile digest embed g C2 Full t2 s1 = Ok (s2, n2) →
  dom (vstore s2) = list_to_set (ids digest C2)
  ∧ (∀ c, c ∈ C1 → ledger s2 !! chunk_id digest c = None).
Proof.
  intros Hs Hold Hlt Hdisj H1 H2.
  pose proof (full_run_ledger _ _ _ _ _ _ _ Hold H1) as Hl1.
  assert (only_group_older g t2 s1) as Hold1.
  { intros k e. rewrite Hl1. case_decide; [|done]. intros [= <-]. simpl. split; [done|lia]. }
  pose proof (full_run_ledger _ _ _ _ _ _ _ Hold1 H2) as Hl2.
  assert (consistent s2) as Hs2.
  { eapply consistent_step; [|exact H2]. eapply consistent_step; [exact Hs|exact H1]. }
  split.
  - apply set_eq; intros k. rewrite elem_of_dom, <- (Hs2 k), Hl2, elem_of_list_to_set.
    destruct (decide (k ∈ ids digest C2)) as [Hk|Hk];
      [split; eauto | split; [by intros [? ?] | done]].
  - intros c Hc. rewrite Hl2, decide_False; [done|].
    apply Hdisj, elem_of_ids. eauto.
Qed.

(** C3: two chunks with the same text at the same position but different
    [source] have different ids, and after a completed run that indexes
    both, under any cleanup mode, each has a vector of its own in the
    store, under its own id. *)
Theorem distinct_sources_distinct_vectors embed g C mode t s s' n c1 c2 :
  page_content c1 = page_content c2 →
  position c1 = position c2 →
  source c1 ≠ source c2 →
  c1 ∈ C → c2 ∈ C →
  consistent s →
  reconcile digest embed g C mode t s = Ok (s', n) →
  chunk_id digest c1 ≠ chunk_id digest c2
  ∧ is_Some (vstore s' !! chunk_id digest c1)
  ∧ is_Some (vstore s' !! chunk_id digest c2)
  ∧ 2 ≤ size (vstore s').
Proof.
  intros _ _ Hsrc Hc1 Hc2 Hs Hrun.
  assert (chunk_id digest c1 ≠ chunk_id digest c2) as Hne.
  { unfold chunk_id. intros [= ? _]. done. }
  assert (is_Some (vstore s' !! chunk_id digest c1)) as [v1 Hv1].
  { eapply batch_stored; [exact Hs|exact Hrun|]. apply elem_of_ids. eauto. }
  assert (is_Some (vstore s' !! chunk_id digest c2)) as [v2 Hv2].
  { eapply batch_stored; [exact Hs|exact Hrun|]. apply elem_of_ids. eauto. }
  split_and!; [done|eauto|eauto|].
  rewrite <- (insert_id _ _ _ Hv1), <- (insert_delete_eq (vstore s')).
  rewrite map_size_insert_None by apply lookup_delete_eq.
  assert (delete (chunk_id digest c1) (vstore s') !! chunk_id digest c2 = Some v2) as Hd.
  { by rewrite lookup_delete_ne. }
  rewrite <- (insert_id _ _ _ Hd), <- (insert_delete_eq (delete _ _)).
  rewrite map_size_insert_None by apply lookup_delete_eq. lia.
Qed.

End Facts.

Lemma init_only_group_older g t : only_group_older g t init_state.
Proof. intros k e. simpl. by rewrite lookup_empty. Qed.

Lemma init_group_older g t : group_older g t init_state.
Proof. intros k e. simpl. by rewrite lookup_empty. Qed.

Lemma reconcile_preserves_consistent_witness :
  ∃ s' n, reconcile ex_digest ex_embed "g" [cA; cB] Full 1 init_state = Ok (s', n)
          ∧ consistent s'.
Proof.
  destruct (reconcile ex_digest ex_embed "g" [cA; cB] Full 1 init_state)
    as [[s' n]|] eqn:H1; [|vm_compute in H1; discriminate].
  exists s', n. split; [reflexivity|].
  apply (reconcile_preserves_consistent ex_digest ex_embed "g" [cA; cB] Full 1
           init_state s' n consistent_init H1).
Defined.

Lemma reconcile_idempotent_witness :
  ∃ s1 n1 s2,
    reconcile ex_digest ex_embed "g" [cA; cB] Full 1 init_state = Ok (s1, n1)
    ∧ reconcile ex_digest ex_fail "g" [cA; cB] Full 2 s1 = Ok (s2, mkCounts 0 2 0)
    ∧ vstore s2 = vstore s1
    ∧ ledger s2 = refresh (ids ex_digest [cA; cB]) 2 (ledger s1).
Proof.
  destruct (reconcile ex_digest ex_embed "g" [cA; cB] Full 1 init_state)
    as [[s1 n1]|] eqn:H1; [|vm_compute in H1; discriminate].
  destruct (reconcile_idempotent ex_digest ex_embed ex_fail "g" [cA; cB] 1 2
              init_state s1 n1 (init_group_older "g" 1) H1) as (s2 & H2 & Hv & Hl).
  exists s1, n1, s2. split; [reflexivity|]. split; [exact H2|]. split; [exact Hv|exact Hl].
Defined.

(** C1 as stated fails on the ledger: the repeated run refreshes
    [last_seen], so the ledger after it is not the ledger before it. *)
Lemma repeated_run_changes_ledger :
  ∃ s1 n1 s2 n2,
    reconcile ex_digest ex_embed "g" [cA] Full 1 init_state = Ok (s1, n1)
    ∧ reconcile ex_digest ex_embed "g" [cA] Full 2 s1 = Ok (s2, n2)
    ∧ n2 = mkCounts 0 1 0
    ∧ ledger s1 !! chunk_id ex_digest cA = Some (mkEntry "alpha" "g" 1)
    ∧ ledger s2 !! chunk_id ex_digest cA = Some (mkEntry "alpha" "g" 2)
    ∧ ledger s2 ≠ ledger s1.
Proof.
  destruct (reconcile ex_digest ex_embed "g" [cA] Full 1 init_state)
    as [[s1 n1]|] eqn:H1; [|vm_compute in H1; discriminate].
  destruct (reconcile ex_digest ex_embed "g" [cA] Full 2 s1)
    as [[s2 n2]|] eqn:H2; last first.
  { vm_compute in H1. injection H1 as <- <-. vm_compute in H2. discriminate. }
  exists s1, n1, s2, n2. split; [reflexivity|]. split; [exact H2|].
  vm_compute in H1. injection H1 as <- <-.
  vm_compute in H2. injection H2 as <- <-.
  split; [reflexivity|]. split; [reflexivity|]. split; [reflexivity|].
  intros Heq.
  apply (f_equal (λ l : gmap ChunkId LedgerEntry, l !! chunk_id ex_digest cA)) in Heq.
  vm_compute in Heq. discriminate.
Qed.

Lemma ex_ids_disjoint k :
  k ∈ ids ex_digest [cA; cB] → k ∉ ids ex_digest [cC].
Proof.
  unfold ids. cbn. rewrite !elem_of_cons, !elem_of_nil.
  intros [->|[->|[]]] [[=]|[]].
Qed.

Lemma full_cleanup_replaces_witness :
  ∃ s1 n1 s2 n2,
    reconcile ex_digest ex_embed "g" [cA; cB] Full 1 init_state = Ok (s1, n1)
    ∧ reconcile ex_digest ex_embed "g" [cC] Full 2 s1 = Ok (s2, n2)
    ∧ dom (vstore s2) = list_to_set (ids ex_digest [cC])
    ∧ (∀ c, c ∈ [cA; cB] → ledger s2 !! chunk_id ex_digest c = None).
Proof.
  destruct (reconcile ex_digest ex_embed "g" [cA; cB] Full 1 init_state)
    as [[s1 n1]|] eqn:H1; [|vm_compute in H1; discriminate].
  destruct (reconcile ex_digest ex_embed "g" [cC] Full 2 s1)
    as [[s2 n2]|] eqn:H2; last first.
  { vm_compute in H1. injection H1 as <- <-. vm_compute in H2. discriminate. }
  exists s1, n1, s2, n2. split; [reflexivity|]. split; [exact H2|].
  apply (full_cleanup_replaces ex_digest ex_embed "g" [cA; cB] [cC] 1 2
           init_state s1 n1 s2 n2 consistent_init (init_only_group_older "g" 1)
           (Nat.lt_succ_diag_r 1) ex_ids_disjoint H1 H2).
Defined.

Lemma distinct_sources_distinct_vectors_witness :
  ∃ s' n,
    reconcile ex_digest ex_embed "g" [cA; cC] Full 1 init_state = Ok (s', n)
    ∧ chunk_id ex_digest cA ≠ chunk_id ex_digest cC
    ∧ is_Some (vstore s' !! chunk_id ex_digest cA)
    ∧ is_Some (vstore s' !! chunk_id ex_digest cC)
    ∧ 2 ≤ size (vstore s').
Proof.
  destruct (reconcile ex_digest ex_embed "g" [cA; cC] Full 1 init_state)
    as [[s' n]|] eqn:H1; [|vm_compute in H1; discriminate].
  exists s', n. split; [reflexivity|].
  apply (distinct_sources_distinct_vectors ex_digest ex_embed "g" [cA; cC] Full 1
           init_state s' n cA cC).
  - reflexivity.
  - reflexivity.
  - discriminate.
  - apply elem_of_cons. by left.
  - apply elem_of_cons. right. apply elem_of_cons. by left.
  - exact consistent_init.
  - exact H1.
Defined.

End ReconcilerFacts.

(** ** Theorems: extraction *)

Module ExtractFacts.
Import Extract.

Lemma no_sep_app a b : no_sep a → no_sep b → no_sep (a +:+ b).
Proof. induction a as [|c a IH]; simpl; [done|]. intros [? ?] ?. split; auto. Qed.

Lemma app_assoc_string (a b c : string) : (a +:+ b) +:+ c = a +:+ (b +:+ c).
Proof.
  induction a as [|x a IH]; [reflexivity|].
  change (String x ((a +:+ b) +:+ c) = String x (a +:+ (b +:+ c))).
  by rewrite IH.
Qed.

Lemma pretty_N_char_no_sep y : pretty_N_char y ≠ "_"%char.
Proof. unfold pretty_N_char. repeat case_match; discriminate. Qed.

Lemma pretty_N_go_digits x s :
  ∃ ds, pretty_N_go x s = ds +:+ s ∧ no_sep ds.
Proof.
  revert s. induction (N.lt_wf_0 x) as [x _ IH]; intros s.
  destruct (decide (x = 0)%N) as [->|Hx].
  - exists "". by rewrite pretty_N_go_0.
  - rewrite pretty_N_go_step by lia.
    destruct (IH (x `div` 10)%N) with (s := String (pretty_N_char (x `mod` 10)) s)
      as (ds & -> & Hds).
    { apply N.div_lt; lia. }
    exists (ds +:+ String (pretty_N_char (x `mod` 10)) "").
    split.
    + by rewrite app_assoc_string.
    + apply no_sep_app; [done|]. simpl. split; [apply pretty_N_char_no_sep | done].
Qed.

Lemma pretty_nat_no_sep (n : nat) : no_sep (pretty n).
Proof.
  unfold pretty, pretty_nat, pretty, pretty_N.
  case_decide; [simpl; split; [discriminate|done]|].
  destruct (pretty_N_go_digits (N.of_nat n) "") as (ds & -> & Hds).
  apply no_sep_app; [done|]. done.
Qed.

Lemma sep_split_inj a b r1 r2 :
  no_sep a → no_sep b →
  a +:+ String "_" r1 = b +:+ String "_" r2 → a = b.
Proof.
  revert b. induction a as [|c a IH]; intros [|c' b]; simpl.
  - done.
  - intros _ [Hc _] [= <- _]. done.
  - intros [Hc _] _ [= -> _]. done.
  - intros [_ Ha] [_ Hb] [= -> Heq]. f_equal. by apply IH.
Qed.

Lemma file_name_split n f : ∃ r, file_name n f = pretty n +:+ String "_" r.
Proof. destruct f; unfold file_name; simpl; eauto. Qed.

Lemma file_name_inj n m f f' : file_name n f = file_name m f' → n = m.
Proof.
  destruct (file_name_split n f) as [r ->].
  destruct (file_name_split m f') as [r' ->].
  intros Heq%sep_split_inj; [|apply pretty_nat_no_sep..].
  by apply (inj pretty) in Heq.
Qed.

Lemma names_below_fresh n F f : names_below n F → F !! file_name n f = None.
Proof.
  intros HF. destruct (F !! file_name n f) eqn:He; [|done].
  destruct (HF (file_name n f)) as (j & f' & Hj & Heq); [by eexists|].
  apply file_name_inj in Heq. lia.
Qed.

Lemma names_below_insert n F f b :
  names_below n F → names_below (S n) (<[file_name n f := b]> F).
Proof.
  intros HF name. destruct (decide (file_name n f = name)) as [<-|Hne].
  - intros _. exists n, f. split; [lia|done].
  - rewrite lookup_insert_ne by done. intros (j & f' & ? & ?)%HF.
    exists j, f'. split; [lia|done].
Qed.

Section Loop.
Variables (dir : string) (base : gmap string (gmap string bytes)).

(** One turn of the loop: it writes the file under a name not yet in the
    directory, or it raises and touches nothing but that directory. *)
Lemma extract_one_spec f n F :
  names_below n F →
  match extract_one dir f (mkDisk (<[dir := F]> base) n) with
  | (Ok _, d') =>
      ∃ b, content_of f = Some b
           ∧ d' = mkDisk (<[dir := <[file_name n f := b]> F]> base) (S n)
  | (Raise _, d') => ∃ F', dirs d' = <[dir := F']> base
  end.
Proof.
  intros HF. unfold extract_one, bind, uuid4, open_wb. cbn [dirs next_uuid].
  rewrite lookup_insert_eq. fold (file_name n f).
  destruct (has_slash (file_name n f)); [by exists F|].
  rewrite insert_insert_eq.
  destruct f as [name value|content|]; unfold write, modify, raise; cbn.
  - exists value. split; [done|]. f_equal.
    by rewrite alter_insert_eq, insert_insert_eq.
  - exists content. split; [done|]. f_equal.
    by rewrite alter_insert_eq, insert_insert_eq.
  - eauto.
Qed.

Lemma for_each_extract_spec fs n F :
  names_below n F →
  match for_each fs (extract_one dir) (mkDisk (<[dir := F]> base) n) with
  | (Ok _, d') =>
      ∃ F', d' = mkDisk (<[dir := F']> base) (n + length fs)
            ∧ size F' = size F + length fs
            ∧ F ⊆ F'
            ∧ (∀ i f, fs !! i = Some f →
                      is_Some (content_of f)
                      ∧ F' !! file_name (n + i) f = content_of f)
  | (Raise _, d') => ∃ F', dirs d' = <[dir := F']> base
  end.
Proof.
  revert n F. induction fs as [|f fs IH]; intros n F HF.
  - cbn. exists F. rewrite !Nat.add_0_r. split_and!; [done..|]. intros i f; by rewrite lookup_nil.
  - cbn [for_each]. unfold bind at 1.
    pose proof (extract_one_spec f n F HF) as H1.
    destruct (extract_one dir f _) as [[[]|msg] d1]; [|done].
    destruct H1 as (b & Hb & ->).
    specialize (IH (S n) _ (names_below_insert n F f b HF)).
    destruct (for_each fs _ _) as [[[]|msg] d2]; [|done].
    destruct IH as (F' & -> & Hsz & Hsub & Hall).
    exists F'. cbn [length].
    rewrite map_size_insert_None in Hsz by (by apply names_below_fresh).
    split_and!.
    + f_equal. lia.
    + lia.
    + etrans; [|exact Hsub]. apply insert_subseteq. by apply names_below_fresh.
    + intros [|i] f' Hf'; cbn in Hf'.
      * injection Hf' as <-. rewrite Hb, Nat.add_0_r. split; [eauto|].
        eapply lookup_weaken; [|exact Hsub]. apply lookup_insert_eq.
      * replace (n + S i) with (S n + i) by lia. by apply Hall.
Qed.
End Loop.

Lemma names_below_empty n : names_below n ∅.
Proof. intros name. rewrite lookup_empty. by intros [? ?]. Qed.

(** When [extract_pdf] raises, the directories on disk are those from before
    the call. *)
Lemma extract_pdf_raise_dirs (u : PyArg) (d d' : Disk) msg :
  extract_pdf u d = (Raise msg, d') → dirs d' = dirs d.
Proof.
  unfold extract_pdf, bind at 1, mkdtemp.
  set (dir := fresh_string "pdf_extract_" (dirs d)).
  unfold bind, try_except.
  pose proof (for_each_extract_spec dir (dirs d) (normalize u) (next_uuid d) ∅
                (names_below_empty _)) as Hloop.
  destruct (for_each (normalize u) (extract_one dir) _) as [[[]|msg'] d1]; [done|].
  destruct Hloop as (F' & HF'). unfold rmtree, modify, raise. cbn.
  intros [= _ <-]. cbn. rewrite HF'. apply delete_insert_id, fresh_string_fresh.
Qed.

(** Two uploads are written to a new directory, one file each. *)
Example extract_two_files :
  let r := extract_pdf (Many [UploadedFile "a.pdf" [x01]; RawBytes [x02]]) (mkDisk ∅ 0) in
  r.1 = Ok "pdf_extract_"
  ∧ map_to_list <$> dirs r.2 !! "pdf_extract_"
    = Some [("1_uploaded.pdf", [x02]); ("0_a.pdf", [x01])].
Proof. vm_compute. done. Qed.

(** A file name with a path separator cannot be opened in the new directory:
    nothing is left of the first file either. *)
Example extract_bad_name :
  extract_pdf (Many [UploadedFile "a.pdf" [x01]; UploadedFile "scans/b.pdf" [x02]])
    (mkDisk ∅ 0)
  = (Raise "Failed to extract PDF: [Errno 2] No such file or directory", mkDisk ∅ 2).
Proof. vm_compute. done. Qed.

(** C9: [extract_pdf] is all or nothing on its temporary directory.  When
    it returns, the directory is one that did not exist before and holds
    exactly one file per input (a single input counts as a list of one),
    each with the bytes of its input; when it raises, the directories on
    disk are those from before the call. *)
Theorem extract_pdf_atomic (u : PyArg) (d : Disk) :
  match extract_pdf u d with
  | (Ok temp_dir, d') =>
      dirs d !! temp_dir = None
      ∧ ∃ files, dirs d' = <[temp_dir := files]> (dirs d)
          ∧ size files = length (normalize u)
          ∧ (∀ i f, normalize u !! i = Some f →
                    is_Some (content_of f)
                    ∧ files !! file_name (next_uuid d + i) f = content_of f)
  | (Raise _, d') => dirs d' = dirs d
  end.
Proof.
  unfold extract_pdf, bind at 1, mkdtemp.
  set (dir := fresh_string "pdf_extract_" (dirs d)).
  assert (dirs d !! dir = None) as Hfresh by apply fresh_string_fresh.
  unfold bind, try_except.
  (* the loop starts on the new, empty directory *)
  pose proof (for_each_extract_spec dir (dirs d) (normalize u) (next_uuid d) ∅
                (names_below_empty _)) as Hloop.
  destruct (for_each (normalize u) (extract_one dir) _) as [[[]|msg] d1].
  - (* every file was written *)
    destruct Hloop as (F' & -> & Hsz & _ & Hall). cbn.
    split; [done|]. exists F'. rewrite map_size_empty in Hsz. done.
  - (* a write raised: the directory is removed, whatever it held *)
    destruct Hloop as (F' & HF'). unfold rmtree, modify, raise. cbn.
    rewrite HF'. by apply delete_insert_id.
Qed.

End ExtractFacts.

(** ** Theorems: [VectorDB.index] and the backends *)

Module IndexingFacts.
Import Extract Chunker Backend Indexing Samples.

Section Abort.
Variable loader : string → gmap string bytes → result (list Document).
Variable split_documents : nat → nat → list Document → result (list Document).
Variable index : list Document → M State Counts.

Lemma VectorDB_index_extract_raise (self : VectorDB) u w msg d' :
  extract_pdf u (disk w) = (Raise msg, d') →
  VectorDB_index loader split_documents index self u w
  = (Raise ("Failed to index document: " +:+ msg),
     mkWorld d' (pinecone w) (chroma w) (ledgers w)).
Proof.
  intros He. unfold VectorDB_index, try_except, bind, lift_disk.
  by rewrite He.
Qed.

(** A loader that raises, as on a file that is not a PDF, aborts the run as
    well: the indexing routine is not called. *)
Lemma VectorDB_index_loader_raise (self : VectorDB) u w directory d' files msg :
  extract_pdf u (disk w) = (Ok directory, d') →
  dirs d' !! directory = Some files →
  loader directory files = Raise msg →
  VectorDB_index loader split_documents index self u w
  = (Raise ("Failed to index document: " +:+ msg),
     mkWorld d' (pinecone w) (chroma w) (ledgers w)).
Proof.
  intros He Hd Hl. unfold VectorDB_index, try_except, bind, lift_disk.
  rewrite He. cbn. unfold load_pdf_directory. by rewrite Hd, Hl.
Qed.

(** C7, as the code has it: when extracting the batch raises, as it does
    when one file of it cannot be written, [VectorDB.index] raises too:
    the whole run is aborted, no document of the batch reaches the
    indexing routine, and ledgers, collections and directories are those
    from before the call. *)
Theorem index_aborts_when_extraction_fails (self : VectorDB) (u : PyArg) (w : World) :
  is_ok (extract_pdf u (disk w)).1 = false →
  is_ok (VectorDB_index loader split_documents index self u w).1 = false
  ∧ ledgers (VectorDB_index loader split_documents index self u w).2 = ledgers w
  ∧ chroma (VectorDB_index loader split_documents index self u w).2 = chroma w
  ∧ pinecone (VectorDB_index loader split_documents index self u w).2 = pinecone w
  ∧ dirs (disk (VectorDB_index loader split_documents index self u w).2) = dirs (disk w).
Proof.
  intros Hfail.
  destruct (extract_pdf u (disk w)) as [[dir|msg] d'] eqn:He; [done|].
  rewrite (VectorDB_index_extract_raise self u w msg d' He). cbn.
  split_and!; try done.
  by apply (ExtractFacts.extract_pdf_raise_dirs u (disk w) d' msg).
Qed.
End Abort.

(** *** [VectorDB.index] leaves the control plane alone *)

Lemma same_control_refl w : same_control w w.
Proof. by split. Qed.

Lemma same_control_trans w1 w2 w3 :
  same_control w1 w2 → same_control w2 w3 → same_control w1 w3.
Proof. intros [H1 H2] [H3 H4]. split; [congruence|]. intros n. by rewrite H4, H2. Qed.

Lemma keeps_ret {A} (a : A) : keeps_control (ret a).
Proof. intros w. apply same_control_refl. Qed.

Lemma keeps_raise {A} msg : keeps_control (@raise World A msg).
Proof. intros w. apply same_control_refl. Qed.

Lemma keeps_lift_result {A} (r : result A) : keeps_control (lift_result r).
Proof. intros w. apply same_control_refl. Qed.

Lemma keeps_lift_disk {A} (m : M Disk A) : keeps_control (lift_disk m).
Proof. intros w. unfold lift_disk. destruct (m (disk w)). by split. Qed.

Lemma keeps_bind {A B} (m : M World A) (k : A → M World B) :
  keeps_control m → (∀ a, keeps_control (k a)) → keeps_control (bind m k).
Proof.
  intros Hm Hk w. unfold bind. specialize (Hm w).
  destruct (m w) as [[a|msg] w1]; [|done].
  eapply same_control_trans; [exact Hm|apply Hk].
Qed.

Lemma keeps_try_except {A} (m : M World A) (h : string → M World A) :
  keeps_control m → (∀ e, keeps_control (h e)) → keeps_control (try_except m h).
Proof.
  intros Hm Hh w. unfold try_except. specialize (Hm w).
  destruct (m w) as [[a|msg] w1]; [done|].
  eapply same_control_trans; [exact Hm|apply Hh].
Qed.

Lemma same_control_write_vectors self vs w : same_control w (write_vectors self vs w).
Proof.
  unfold write_vectors. case_decide; [|by split].
  split; [done|]. intros n. cbn.
  destruct (decide (index_name self = n)) as [<-|Hne].
  - rewrite lookup_alter_eq. by destruct (indexes (pinecone w) !! index_name self).
  - by rewrite lookup_alter_ne.
Qed.

Lemma keeps_call_index index self chunks : keeps_control (call_index index self chunks).
Proof.
  intros w. unfold call_index.
  destruct (read_ledger self w); [|apply same_control_refl].
  destruct (read_vectors self w); [|apply same_control_refl].
  destruct (index chunks _) as [r s']. cbn [snd].
  eapply same_control_trans; [apply same_control_write_vectors|]. by split.
Qed.

Lemma keeps_VectorDB_index loader split_documents index self u :
  keeps_control (VectorDB_index loader split_documents index self u).
Proof.
  unfold VectorDB_index.
  apply keeps_try_except; [|intros; apply keeps_raise].
  repeat (apply keeps_bind; [|intros ?]);
    auto using keeps_lift_disk, keeps_lift_result, keeps_call_index.
Qed.

(** *** [setup_pinecone] on a dimension mismatch *)

Lemma setup_pinecone_mismatch p name dim metric ix :
  api_ok p = true → describe_ok p = true →
  indexes p !! name = Some ix →
  dimension ix ≠ 0 → dimension ix ≠ dim →
  setup_pinecone name dim metric true p
  = (Ok tt,
     mkPinecone true true (<[name := mkIndex dim metric true ∅]> (indexes p))
       (admin_log p ++ [ListIndexes; DescribeIndex name; DeleteIndex name;
                        CreateIndex name dim])).
Proof.
  destruct p as [a d ixs lg]. cbn. intros -> -> Hix H0 Hdim.
  unfold setup_pinecone, try_except, bind, list_indexes. cbn.
  rewrite bool_decide_eq_true_2 by (apply elem_of_dom; eauto).
  unfold describe_index. cbn. rewrite Hix. cbn.
  apply Nat.eqb_neq in H0, Hdim. rewrite H0, Hdim. cbn.
  unfold delete_index, create_index. cbn.
  rewrite lookup_delete_eq. cbn. unfold log_call, set_indexes. cbn.
  rewrite insert_delete_eq, <- !app_assoc. done.
Qed.

Lemma makedirs_world directory w :
  ∃ dk, lift_disk (makedirs directory) w
        = (Ok tt, mkWorld dk (pinecone w) (chroma w) (ledgers w)).
Proof. unfold lift_disk, makedirs, modify. eauto. Qed.

Lemma create_schema_world url ns w :
  ∃ lg, create_schema url ns w
        = (Ok tt, mkWorld (disk w) (pinecone w) (chroma w) lg).
Proof.
  unfold create_schema, modify. destruct (ledgers w !! (url, ns)); [|eauto].
  destruct w; eauto.
Qed.

(** C6, as the code has it: for the Pinecone backend, when the index exists
    and [describe_index] reports a dimension that is not 0 and not the
    configured one, [VectorDB.__init__] deletes the index and creates it
    again, empty, with the configured dimension, before it returns the
    object that upserts go through; the control-plane calls of the
    initialization are one listing, one description, one deletion and one
    creation, and no later [VectorDB.index] call makes any or changes the
    dimension. *)
Theorem pinecone_mismatch_recreated_once cfg name cache w ix :
  api_ok (pinecone w) = true →
  describe_ok (pinecone w) = true →
  indexes (pinecone w) !! name = Some ix →
  dimension ix ≠ 0 →
  dimension ix ≠ embedding_dim cfg →
  ∃ db w',
    VectorDB_init cfg "pinecone" name cache w = (Ok db, w')
    ∧ db_name db = "pinecone" ∧ index_name db = name
    ∧ indexes (pinecone w') !! name = Some (mkIndex (embedding_dim cfg) "cosine" true ∅)
    ∧ admin_log (pinecone w')
      = (admin_log (pinecone w)
           ++ [ListIndexes; DescribeIndex name; DeleteIndex name;
               CreateIndex name (embedding_dim cfg)])%list
    ∧ ∀ loader split_documents index u w1,
        same_control w1 (VectorDB_index loader split_documents index db u w1).2.
Proof.
  intros Hapi Hdesc Hix H0 Hdim.
  unfold VectorDB_init, bind.
  destruct (makedirs_world (or_default cache "./.cache/database") w) as [dk ->].
  rewrite decide_True by done.
  unfold lift_pinecone. cbn [pinecone disk chroma ledgers].
  rewrite (setup_pinecone_mismatch _ _ _ _ ix) by done.
  match goal with
  | |- context [create_schema ?u ?n ?w0] =>
      destruct (create_schema_world u n w0) as [lg ->]
  end.
  eexists _, _. split; [reflexivity|]. cbn.
  split; [done|]. split; [done|].
  split; [by rewrite lookup_insert_eq|]. split; [done|].
  intros. apply keeps_VectorDB_index.
Qed.

Lemma pinecone_mismatch_recreated_once_witness :
  ∃ db w',
    VectorDB_init large_config "pinecone" "docs" None pinecone_1536 = (Ok db, w')
    ∧ db_name db = "pinecone" ∧ index_name db = "docs"
    ∧ indexes (pinecone w') !! "docs" = Some (mkIndex 3072 "cosine" true ∅)
    ∧ admin_log (pinecone w')
      = [ListIndexes; DescribeIndex "docs"; DeleteIndex "docs"; CreateIndex "docs" 3072]
    ∧ ∀ loader split_documents index u w1,
        same_control w1 (VectorDB_index loader split_documents index db u w1).2.
Proof.
  apply (pinecone_mismatch_recreated_once large_config "docs" None pinecone_1536
           (mkIndex 1536 "cosine" true {[ ("a.pdf", "alpha") := old_vector ]})).
  - reflexivity.
  - reflexivity.
  - reflexivity.
  - cbn. lia.
  - cbn. lia.
Defined.

(** C6 as stated fails for the Chroma backend: initialization with a model
    of 3072 dimensions over a collection of 1536 dimensions returns an
    object on the very same collection, vectors included, and makes no
    control-plane call. *)
Lemma chroma_mismatch_not_detected :
  (VectorDB_init large_config "chroma" "docs" None chroma_1536).1 = Ok docs_db
  ∧ embedding_dim large_config = 3072
  ∧ chroma (VectorDB_init large_config "chroma" "docs" None chroma_1536).2
      !! ("./.cache/database", "docs")
    = Some (mkCollection (Some 1536) {[ ("a.pdf", "alpha") := old_vector ]})
  ∧ admin_log (pinecone (VectorDB_init large_config "chroma" "docs" None chroma_1536).2) = [].
Proof. vm_compute. done. Qed.

(** For any backend but Pinecone the initialization does not depend on the
    configured dimension at all. *)
Lemma other_backends_ignore_dimension cfg cfg' db name cache w :
  db ≠ "pinecone" →
  VectorDB_init cfg db name cache w = VectorDB_init cfg' db name cache w.
Proof.
  intros Hdb. unfold VectorDB_init.
  destruct (decide (db = "pinecone")); [done | reflexivity].
Qed.

(** On Pinecone too the mismatch goes unnoticed when [describe_index] does
    not answer: the index keeps its 1536 dimensions. *)
Lemma pinecone_mismatch_kept_when_describe_fails :
  let w := mkWorld (disk pinecone_1536)
             (mkPinecone true false (indexes (pinecone pinecone_1536)) [])
             ∅ ∅ in
  is_ok (VectorDB_init large_config "pinecone" "docs" None w).1 = true
  ∧ dimension <$> indexes (pinecone (VectorDB_init large_config "pinecone" "docs" None w).2)
                    !! "docs" = Some 1536
  ∧ admin_log (pinecone (VectorDB_init large_config "pinecone" "docs" None w).2)
    = [ListIndexes].
Proof. vm_compute. done. Qed.

Lemma index_aborts_when_extraction_fails_witness :
  is_ok (VectorDB_index page_loader split_documents_spec (reconcile_at 1) docs_db
           (Many [good_pdf; OtherObject]) chroma_world).1 = false
  ∧ ledgers (VectorDB_index page_loader split_documents_spec (reconcile_at 1) docs_db
               (Many [good_pdf; OtherObject]) chroma_world).2 = ledgers chroma_world
  ∧ chroma (VectorDB_index page_loader split_documents_spec (reconcile_at 1) docs_db
              (Many [good_pdf; OtherObject]) chroma_world).2 = chroma chroma_world
  ∧ pinecone (VectorDB_index page_loader split_documents_spec (reconcile_at 1) docs_db
                (Many [good_pdf; OtherObject]) chroma_world).2 = pinecone chroma_world
  ∧ dirs (disk (VectorDB_index page_loader split_documents_spec (reconcile_at 1) docs_db
                  (Many [good_pdf; OtherObject]) chroma_world).2) = dirs (disk chroma_world).
Proof.
  apply (index_aborts_when_extraction_fails page_loader split_documents_spec
           (reconcile_at 1) docs_db (Many [good_pdf; OtherObject]) chroma_world).
  vm_compute. reflexivity.
Defined.

(** C7 as stated fails: a batch of a good file and an object that cannot be
    written is not indexed at all, the good file included, although the good
    file alone is indexed. *)
Lemma unwritable_file_aborts_batch :
  (VectorDB_index page_loader split_documents_spec (reconcile_at 1) docs_db
     (Many [good_pdf; OtherObject]) chroma_world).1
  = Raise "Failed to index document: Failed to extract PDF: a bytes-like object is required"
  ∧ read_ledger docs_db
      (VectorDB_index page_loader split_documents_spec (reconcile_at 1) docs_db
         (Many [good_pdf; OtherObject]) chroma_world).2 = Some ∅
  ∧ read_vectors docs_db
      (VectorDB_index page_loader split_documents_spec (reconcile_at 1) docs_db
         (Many [good_pdf; OtherObject]) chroma_world).2 = Some ∅
  ∧ (VectorDB_index page_loader split_documents_spec (reconcile_at 1) docs_db
       (Many [good_pdf]) chroma_world).1 = Ok tt
  ∧ size <$> read_vectors docs_db
      (VectorDB_index page_loader split_documents_spec (reconcile_at 1) docs_db
         (Many [good_pdf]) chroma_world).2 = Some 1.
Proof. vm_compute. done. Qed.

(** The same upload indexed twice: the loader names the source after the
    extracted file, whose name starts with a new identifier, so the second run
    finds no chunk of the first and replaces it. *)
Example reupload_gets_new_ids :
  let w1 := (VectorDB_index page_loader split_documents_spec (reconcile_at 1) docs_db
               (Single good_pdf) chroma_world).2 in
  let w2 := (VectorDB_index page_loader split_documents_spec (reconcile_at 2) docs_db
               (Single good_pdf) w1).2 in
  (map_to_list <$> read_ledger docs_db w1)
  = Some [(("pdf_extract_/0_good.pdf", "hi"), mkEntry "hi" "docs" 1)]
  ∧ (map_to_list <$> read_ledger docs_db w2)
    = Some [(("pdf_extract_/1_good.pdf", "hi"), mkEntry "hi" "docs" 2)].
Proof. vm_compute. done. Qed.

End IndexingFacts.

(** ** Theorems: the knowledge-base update of [app.py] *)

Module AppFacts.
Import App.

Section Main.
Context {W Chain : Type}.
Variable OpenAIChain : M W Chain.
Variable OpenAIRAGChain : PyFile → string → M W Chain.
Variable update_chain : Chain → PyFile → M W unit.

(** A recorded computation does to the world what the computation does,
    and adds its call to the record. *)
Lemma traced_eq {A} (c : ChainCall) (m : M W A) w l :
  traced c m (w, l) = ((m w).1, ((m w).2, l ++ [c])).
Proof. reflexivity. Qed.

Lemma traced_load_chain_body pdf f db w l :
  load_chain_body (traced BuildPlain OpenAIChain)
    (λ f d, traced (BuildRag f d) (OpenAIRAGChain f d)) pdf f db (w, l)
  = ((load_chain_body OpenAIChain OpenAIRAGChain pdf f db w).1,
     ((load_chain_body OpenAIChain OpenAIRAGChain pdf f db w).2,
      l ++ [build_call pdf f db])).
Proof.
  unfold load_chain_body, try_except, bind, build_call.
  destruct pdf, f as [f|]; rewrite traced_eq.
  - by destruct (OpenAIRAGChain f db w) as [[c|e] w1].
  - by destruct (OpenAIChain w) as [[c|e] w1].
  - by destruct (OpenAIChain w) as [[c|e] w1].
  - by destruct (OpenAIChain w) as [[c|e] w1].
Qed.

Lemma traced_load_chain c pdf f db w l :
  load_chain (traced BuildPlain OpenAIChain)
    (λ f d, traced (BuildRag f d) (OpenAIRAGChain f d)) c pdf f db (w, l)
  = ((load_chain OpenAIChain OpenAIRAGChain c pdf f db w).1,
     ((load_chain OpenAIChain OpenAIRAGChain c pdf f db w).2,
      l ++ build_calls c pdf f db)).
Proof.
  unfold load_chain, build_calls.
  destruct (cache_lookup (pdf, f, db) c) as [r|].
  - cbn. by rewrite app_nil_r.
  - unfold bind. rewrite traced_load_chain_body.
    by destruct (load_chain_body OpenAIChain OpenAIRAGChain pdf f db w) as [[r|e] w1].
Qed.

(** C10: an update with two or more uploaded files hands the chain classes
    the first of them and no other.  With every call of the chain classes
    recorded, the calls of [main_update] on the uploads [f :: g :: rest] are:
    the construction of the chain for [f], unless it is in the cache, and,
    when a chain is loaded and [knowledge_change] is set, one
    [update_chain(f)].  So every file that reaches [OpenAIRAGChain] or
    [update_chain] is [uploaded_file[0]]. *)
Theorem only_first_upload_reaches_chain
    (db_type : string) (st : Session) (f g : PyFile) (rest : list PyFile) (w : W)
    (r : option Chain) (c' : list (CacheKey * option Chain)) (w1 : W) :
  load_chain OpenAIChain OpenAIRAGChain (cache st) (pdf_chat st) (Some f) db_type w
    = (Ok (r, c'), w1) →
  let calls :=
    (traced_main_update OpenAIChain OpenAIRAGChain update_chain db_type
       (with_uploads (f :: g :: rest) st) (w, [])).2.2 in
  calls
  = (match cache_lookup (pdf_chat st, Some f, db_type) (cache st) with
     | Some _ => []
     | None => [if pdf_chat st then BuildRag f db_type else BuildPlain]
     end)
    ++ (match r with
        | Some _ => if knowledge_change st then [UpdateChain f] else []
        | None => []
        end)
  ∧ ∀ h, (UpdateChain h ∈ calls ∨ ∃ d, BuildRag h d ∈ calls) → h = f.
Proof.
  intros Hl calls.
  assert (calls
          = build_calls (cache st) (pdf_chat st) (Some f) db_type
            ++ match r with
               | Some _ => if knowledge_change st then [UpdateChain f] else []
               | None => []
               end) as Hcalls.
  { unfold calls, traced_main_update, main_update, with_uploads.
    cbn [cache pdf_chat uploaded_file knowledge_change head].
    unfold try_except at 1, bind at 1.
    rewrite traced_load_chain, Hl. cbn [fst snd app].
    destruct r as [chain|]; [|by rewrite app_nil_r].
    destruct (knowledge_change st); [|by rewrite app_nil_r].
    unfold try_except, bind. rewrite traced_eq.
    by destruct (update_chain chain f w1) as [[[]|e] w2]. }
  split.
  - rewrite Hcalls. unfold build_calls, build_call.
    by destruct (cache_lookup _ (cache st)), (pdf_chat st).
  - rewrite Hcalls. unfold build_calls, build_call. intros h Hh.
    assert (∀ (pre post : list ChainCall),
              (∀ x, x ∈ pre → x = BuildPlain ∨ x = BuildRag f db_type) →
              (∀ x, x ∈ post → x = UpdateChain f) →
              (UpdateChain h ∈ pre ++ post ∨ ∃ d, BuildRag h d ∈ pre ++ post) → h = f)
      as Hsplit.
    { intros pre post Hpre Hpost [Hin|[d Hin]]; apply elem_of_app in Hin as [Hin|Hin].
      - destruct (Hpre _ Hin) as [?|?]; congruence.
      - apply Hpost in Hin. congruence.
      - destruct (Hpre _ Hin) as [?|?]; congruence.
      - apply Hpost in Hin. congruence. }
    apply (Hsplit _ _) in Hh; [done| |].
    + intros x Hx.
      destruct (cache_lookup _ (cache st)); [by apply elem_of_nil in Hx|].
      apply list_elem_of_singleton in Hx. destruct (pdf_chat st); auto.
    + intros x Hx. destruct r; [|by apply elem_of_nil in Hx].
      destruct (knowledge_change st); [|by apply elem_of_nil in Hx].
      by apply list_elem_of_singleton in Hx.
Qed.
End Main.

Lemma only_first_upload_reaches_chain_witness :
  let calls :=
    (traced_main_update (W := unit) (ret tt) (λ _ _, ret tt) (λ _ _, raise "no index")
       "chroma"
       (with_uploads [Samples.good_pdf; OtherObject] (mkSession true [] true []))
       (tt, [])).2.2 in
  calls = [BuildRag Samples.good_pdf "chroma"; UpdateChain Samples.good_pdf]
  ∧ ∀ h, (UpdateChain h ∈ calls ∨ ∃ d, BuildRag h d ∈ calls) → h = Samples.good_pdf.
Proof.
  refine (only_first_upload_reaches_chain (W := unit) (ret tt) (λ _ _, ret tt)
            (λ _ _, raise "no index") "chroma" (mkSession true [] true [])
            Samples.good_pdf OtherObject [] tt (Some tt)
            [((true, Some Samples.good_pdf, "chroma"), Some tt)] tt _).
  reflexivity.
Defined.

(** With the recording chain: two files uploaded, one file seen. *)
Example two_uploads_one_indexed (f g : PyFile) :
  (main_update log_plain log_rag log_update "chroma"
     (mkSession true [f; g] true []) []).2
  = [(true, f); (false, f)].
Proof. reflexivity. Qed.

End AppFacts.

(** ** Theorems: the rest of [pdf_handler.py] *)

Module PdfHandlerFacts.
Import Extract Backend Indexing PdfHandler.

Lemma has_slash_app a b : has_slash (a +:+ b) = has_slash a || has_slash b.
Proof.
  induction a as [|c a IH]; [reflexivity|].
  change (has_slash (String c (a +:+ b)) = has_slash (String c a) || has_slash b).
  cbn [has_slash]. destruct (decide (c = "/"%char)); [done|exact IH].
Qed.

Lemma pretty_N_char_no_slash y : pretty_N_char y ≠ "/"%char.
Proof. unfold pretty_N_char. repeat case_match; discriminate. Qed.

Lemma pretty_N_go_no_slash x s : has_slash (pretty_N_go x s) = has_slash s.
Proof.
  revert s. induction (N.lt_wf_0 x) as [x _ IH]; intros s.
  destruct (decide (x = 0)%N) as [->|Hx]; [by rewrite pretty_N_go_0|].
  rewrite pretty_N_go_step by lia.
  rewrite IH by (apply N.div_lt; lia).
  cbn [has_slash]. rewrite decide_False by apply pretty_N_char_no_slash. done.
Qed.

Lemma pretty_nat_no_slash (n : nat) : has_slash (pretty n) = false.
Proof.
  unfold pretty, pretty_nat, pretty, pretty_N.
  case_decide; [done|]. by rewrite pretty_N_go_no_slash.
Qed.

(** The name a file is written under has a separator only if the name of the
    upload has one. *)
Lemma file_name_slash n f :
  has_slash (file_name n f)
  = match f with UploadedFile name _ => has_slash name | _ => false end.
Proof.
  destruct f as [name value|content|]; unfold file_name, target; cbn [fst].
  - rewrite !has_slash_app, pretty_nat_no_slash. done.
  - rewrite has_slash_app, pretty_nat_no_slash. done.
  - rewrite has_slash_app, pretty_nat_no_slash. done.
Qed.

(** One turn of the loop succeeds exactly on a writable file, and leaves the
    directory in place. *)
Lemma extract_one_ok dir f d F :
  dirs d !! dir = Some F →
  is_ok (extract_one dir f d).1 = writable f
  ∧ (is_ok (extract_one dir f d).1 = true →
     is_Some (dirs (extract_one dir f d).2 !! dir)).
Proof.
  intros HF. unfold extract_one, bind, uuid4, open_wb. cbn [dirs next_uuid].
  rewrite HF. fold (file_name (next_uuid d) f). rewrite file_name_slash.
  destruct f as [name value|content|]; cbn.
  - destruct (has_slash name); cbn; [done|].
    split; [done|]. intros _. rewrite lookup_alter_eq, lookup_insert_eq. by eexists.
  - split; [done|]. intros _. rewrite lookup_alter_eq, lookup_insert_eq. by eexists.
  - done.
Qed.

Lemma for_each_extract_ok dir fs d :
  is_Some (dirs d !! dir) →
  is_ok (for_each fs (extract_one dir) d).1 = forallb writable fs.
Proof.
  revert d. induction fs as [|f fs IH]; intros d [F HF]; [done|].
  cbn [for_each forallb]. unfold bind at 1.
  destruct (extract_one_ok dir f d F HF) as [Hok Hdir].
  destruct (extract_one dir f d) as [[[]|msg] d1]; cbn in Hok, Hdir |- *.
  - rewrite <- Hok. cbn. apply IH. by apply Hdir.
  - by rewrite <- Hok.
Qed.

(** On the disk of the model, where a name without separator can always be
    written, the loop of [extract_pdf] succeeds exactly on writable files. *)
Lemma extract_pdf_is_ok (u : PyArg) (d : Disk) :
  is_ok (extract_pdf u d).1 = forallb writable (normalize u).
Proof.
  unfold extract_pdf, bind at 1, mkdtemp.
  set (dir := fresh_string "pdf_extract_" (dirs d)).
  set (d0 := mkDisk (<[dir := ∅]> (dirs d)) (next_uuid d)).
  assert (is_Some (dirs d0 !! dir)) as Hdir.
  { unfold d0. cbn. rewrite lookup_insert_eq. by eexists. }
  pose proof (for_each_extract_ok dir (normalize u) d0 Hdir) as Hloop.
  unfold bind, try_except.
  destruct (for_each (normalize u) (extract_one dir) d0) as [[[]|msg] d1];
    cbn in Hloop |- *; exact Hloop.
Qed.

(** Whatever [extract_pdf] raises is the wrapped exception of its [except]
    clause. *)
Lemma extract_pdf_raise_msg (u : PyArg) (d d' : Disk) m :
  extract_pdf u d = (Raise m, d') → ∃ msg, m = "Failed to extract PDF: " +:+ msg.
Proof.
  unfold extract_pdf, bind at 1, mkdtemp.
  unfold bind, try_except.
  destruct (for_each (normalize u) (extract_one _) _) as [[[]|msg] d1]; [done|].
  unfold rmtree, modify, raise. cbn. intros [= <- _]. eauto.
Qed.

(** X2: [extract_pdf] returns only if every file of the upload is writable:
    when one of them holds no bytes, or is an [UploadedFile] with a path
    separator in its name, it raises [Failed to extract PDF: ...], whatever
    the other files are, and the directories are as they were before the
    call. *)
Theorem extract_pdf_raises_on_unwritable (u : PyArg) (d : Disk) (f : PyFile) :
  f ∈ normalize u →
  writable f = false →
  ∃ msg d', extract_pdf u d = (Raise ("Failed to extract PDF: " +:+ msg), d')
            ∧ dirs d' = dirs d.
Proof.
  intros Hin Hw.
  assert (forallb writable (normalize u) = false) as Hall.
  { apply not_true_is_false. intros Hall.
    rewrite forallb_forall in Hall.
    assert (writable f = true) as Hf
      by (apply Hall, list_elem_of_In, Hin).
    congruence. }
  pose proof (extract_pdf_is_ok u d) as Hok. rewrite Hall in Hok.
  destruct (extract_pdf u d) as [[dir|m] d'] eqn:He; [done|].
  destruct (extract_pdf_raise_msg u d d' m He) as [msg ->].
  exists msg, d'. split; [done|].
  exact (ExtractFacts.extract_pdf_raise_dirs u d d' _ He).
Qed.

Lemma extract_pdf_raises_on_unwritable_witness :
  ∃ msg d',
    extract_pdf (Many [Samples.good_pdf; UploadedFile "../notes.pdf" [x01]]) (mkDisk ∅ 0)
    = (Raise ("Failed to extract PDF: " +:+ msg), d')
    ∧ dirs d' = ∅.
Proof.
  refine (extract_pdf_raises_on_unwritable
            (Many [Samples.good_pdf; UploadedFile "../notes.pdf" [x01]]) (mkDisk ∅ 0)
            (UploadedFile "../notes.pdf" [x01]) _ _).
  - cbn. set_solver.
  - reflexivity.
Defined.

(** X1: when [create_cache_dir] returns, it returns the directory it was
    given, or [./.cache] for [None] and for the empty string; the directory
    exists afterwards, every directory that existed keeps its files, and a
    second call returns the same and changes nothing. *)
Theorem create_cache_dir_idempotent (directory : option string) (d d' : Disk) name :
  create_cache_dir directory d = (Ok name, d') →
  name = match directory with
         | Some (String c r) => String c r
         | _ => "./.cache"
         end
  ∧ is_Some (dirs d' !! name)
  ∧ (∀ p files, dirs d !! p = Some files → dirs d' !! p = Some files)
  ∧ create_cache_dir directory d' = (Ok name, d').
Proof.
  unfold create_cache_dir, bind, makedirs, modify, ret.
  set (dir := or_default directory "./.cache").
  assert (dir = match directory with
                | Some (String c r) => String c r
                | _ => "./.cache"
                end) as Hdir by (by destruct directory as [[|]|]).
  destruct (dirs d !! dir) as [files|] eqn:Hd.
  - intros [= <- <-]. rewrite Hd.
    split; [done|]. split; [by eexists|]. split; done.
  - intros [= <- <-]. cbn. rewrite lookup_insert_eq.
    split; [done|]. split; [by eexists|]. split; [|done].
    intros p files Hp. rewrite lookup_insert_ne; [done|]. congruence.
Qed.

Lemma create_cache_dir_idempotent_witness :
  is_Some (dirs (create_cache_dir (Some "") (mkDisk {[ "work" := ∅ ]} 0)).2 !! "./.cache")
  ∧ create_cache_dir (Some "") (create_cache_dir (Some "") (mkDisk {[ "work" := ∅ ]} 0)).2
    = (Ok "./.cache", (create_cache_dir (Some "") (mkDisk {[ "work" := ∅ ]} 0)).2).
Proof.
  destruct (create_cache_dir_idempotent (Some "") (mkDisk {[ "work" := ∅ ]} 0)
              (create_cache_dir (Some "") (mkDisk {[ "work" := ∅ ]} 0)).2 "./.cache")
    as (_ & Hdir & _ & Hagain); [reflexivity|].
  split; [exact Hdir|exact Hagain].
Defined.

(** What a successful [extract_pdf] leaves: a new directory with one file per
    upload, and one identifier drawn per upload. *)
Lemma extract_pdf_ok_files (u : PyArg) (d d' : Disk) dir :
  extract_pdf u d = (Ok dir, d') →
  dirs d !! dir = None
  ∧ next_uuid d' = next_uuid d + length (normalize u)
  ∧ ∃ files, dirs d' = <[dir := files]> (dirs d)
             ∧ size files = length (normalize u).
Proof.
  unfold extract_pdf, bind at 1, mkdtemp.
  set (tmp := fresh_string "pdf_extract_" (dirs d)).
  assert (dirs d !! tmp = None) as Hfresh by apply fresh_string_fresh.
  unfold bind, try_except.
  pose proof (ExtractFacts.for_each_extract_spec tmp (dirs d) (normalize u)
                (next_uuid d) ∅ (ExtractFacts.names_below_empty _)) as Hloop.
  destruct (for_each (normalize u) (extract_one tmp) _) as [[[]|msg] d1].
  - destruct Hloop as (F' & -> & Hsz & _ & _). cbn. intros [= <- <-]. cbn.
    split; [done|]. split; [done|]. exists F'. by rewrite map_size_empty in Hsz.
  - unfold rmtree, modify, raise. cbn. discriminate.
Qed.

Section Load.
Variable loader : string → gmap string bytes → result (list Document).

(** X3: after a successful [extract_pdf], [load_pdf_directory] on the
    returned directory finds it: the loader is handed a directory of exactly
    one file per upload, the disk is not touched, and whatever the loader
    returns or raises is the result. *)
Theorem load_after_extract (u : PyArg) (d d' : Disk) dir :
  extract_pdf u d = (Ok dir, d') →
  ∃ files, dirs d' !! dir = Some files
           ∧ size files = length (normalize u)
           ∧ load_pdf_directory loader dir d' = (loader dir files, d').
Proof.
  intros (_ & _ & files & Hd & Hsz)%extract_pdf_ok_files.
  exists files. unfold load_pdf_directory.
  rewrite Hd, lookup_insert_eq. done.
Qed.
End Load.

Lemma load_after_extract_witness :
  ∃ files,
    dirs (extract_pdf (Many [UploadedFile "a.pdf" [x01]; RawBytes [x02]]) (mkDisk ∅ 0)).2
      !! "pdf_extract_" = Some files
    ∧ size files = 2
    ∧ load_pdf_directory Samples.page_loader "pdf_extract_"
        (extract_pdf (Many [UploadedFile "a.pdf" [x01]; RawBytes [x02]]) (mkDisk ∅ 0)).2
      = (Samples.page_loader "pdf_extract_" files,
         (extract_pdf (Many [UploadedFile "a.pdf" [x01]; RawBytes [x02]]) (mkDisk ∅ 0)).2).
Proof.
  apply (load_after_extract Samples.page_loader
           (Many [UploadedFile "a.pdf" [x01]; RawBytes [x02]]) (mkDisk ∅ 0)).
  vm_compute. reflexivity.
Defined.

End PdfHandlerFacts.

(** ** Theorems: the backends of [vectorstore.py] *)

Module BackendFacts.
Import Extract Backend Indexing.

(** [setup_pinecone] with the serverless spec in closed form, by the state
    of the service. *)
Lemma setup_pinecone_cases name dim metric p :
  setup_pinecone name dim metric true p
  = if api_ok p then
      match indexes p !! name with
      | None =>
          (Ok tt,
           mkPinecone true (describe_ok p)
             (<[name := mkIndex dim metric true ∅]> (indexes p))
             (admin_log p ++ [ListIndexes; CreateIndex name dim]))
      | Some ix =>
          if describe_ok p then
            if negb (dimension ix =? 0) && negb (dimension ix =? dim)
            then (Ok tt,
                  mkPinecone true true
                    (<[name := mkIndex dim metric true ∅]> (indexes p))
                    (admin_log p ++ [ListIndexes; DescribeIndex name;
                                     DeleteIndex name; CreateIndex name dim]))
            else (Ok tt,
                  mkPinecone true true (indexes p)
                    (admin_log p ++ [ListIndexes; DescribeIndex name]))
          else (Ok tt, mkPinecone true false (indexes p) (admin_log p ++ [ListIndexes]))
      end
    else (Raise "Failed to setup Pinecone: Pinecone API unreachable", p).
Proof.
  destruct p as [a ds ixs lg]. cbn [api_ok describe_ok indexes admin_log].
  unfold setup_pinecone, try_except, bind, list_indexes. cbn.
  destruct a; [|reflexivity]. cbn.
  destruct (ixs !! name) as [ix|] eqn:Hix.
  - rewrite bool_decide_eq_true_2 by (apply elem_of_dom; eauto). cbn.
    unfold describe_index. cbn. destruct ds; cbn; [|done].
    rewrite Hix. cbn.
    destruct (negb (dimension ix =? 0) && negb (dimension ix =? dim)); cbn.
    + unfold delete_index, create_index. cbn. rewrite lookup_delete_eq. cbn.
      unfold log_call, set_indexes. cbn.
      by rewrite insert_delete_eq, <- !app_assoc.
    + unfold log_call. cbn. by rewrite <- !app_assoc.
  - rewrite bool_decide_eq_false_2 by (by apply not_elem_of_dom). cbn.
    unfold create_index. cbn. rewrite Hix. cbn. unfold log_call, set_indexes. cbn.
    by rewrite <- !app_assoc.
Qed.

(** [setup_pinecone] with the pod spec in closed form: whenever an index has
    to be created, [PodSpec()] raises before [create_index] is called, after
    the deletion when there was one. *)
Lemma setup_pinecone_pod_cases name dim metric p :
  setup_pinecone name dim metric false p
  = if api_ok p then
      match indexes p !! name with
      | None =>
          (Raise "Failed to setup Pinecone: PodSpec.__init__() missing 1 required positional argument: 'environment'",
           mkPinecone true (describe_ok p) (indexes p) (admin_log p ++ [ListIndexes]))
      | Some ix =>
          if describe_ok p then
            if negb (dimension ix =? 0) && negb (dimension ix =? dim)
            then (Raise "Failed to setup Pinecone: PodSpec.__init__() missing 1 required positional argument: 'environment'",
                  mkPinecone true true (delete name (indexes p))
                    (admin_log p ++ [ListIndexes; DescribeIndex name; DeleteIndex name]))
            else (Ok tt,
                  mkPinecone true true (indexes p)
                    (admin_log p ++ [ListIndexes; DescribeIndex name]))
          else (Ok tt, mkPinecone true false (indexes p) (admin_log p ++ [ListIndexes]))
      end
    else (Raise "Failed to setup Pinecone: Pinecone API unreachable", p).
Proof.
  destruct p as [a ds ixs lg]. cbn [api_ok describe_ok indexes admin_log].
  unfold setup_pinecone, try_except, bind, list_indexes. cbn.
  destruct a; [|reflexivity]. cbn.
  destruct (ixs !! name) as [ix|] eqn:Hix.
  - rewrite bool_decide_eq_true_2 by (apply elem_of_dom; eauto). cbn.
    unfold describe_index. cbn. destruct ds; cbn; [|done].
    rewrite Hix. cbn.
    destruct (negb (dimension ix =? 0) && negb (dimension ix =? dim)); cbn.
    + unfold log_call, set_indexes. cbn. by rewrite <- !app_assoc.
    + unfold log_call. cbn. by rewrite <- !app_assoc.
  - rewrite bool_decide_eq_false_2 by (by apply not_elem_of_dom). cbn.
    done.
Qed.

Lemma lift_disk_makedirs directory w :
  lift_disk (makedirs directory) w
  = (Ok tt, mkWorld (makedirs directory (disk w)).2 (pinecone w) (chroma w) (ledgers w)).
Proof. reflexivity. Qed.


Lemma makedirs_again directory d :
  makedirs directory (makedirs directory d).2 = (Ok tt, (makedirs directory d).2).
Proof.
  unfold makedirs, modify. cbn.
  destruct (dirs d !! directory) eqn:Hd; [by rewrite Hd|].
  cbn. by rewrite lookup_insert_eq.
Qed.

Lemma create_schema_eq url ns w :
  create_schema url ns w
  = (Ok tt, mkWorld (disk w) (pinecone w) (chroma w)
              (<[(url, ns) := default ∅ (ledgers w !! (url, ns))]> (ledgers w))).
Proof.
  unfold create_schema, modify. destruct (ledgers w !! (url, ns)) as [l|] eqn:Hl; [|done].
  cbn. rewrite insert_id by done. by destruct w.
Qed.

Lemma Chroma_eq name dir w :
  Chroma name dir w
  = (Ok tt, mkWorld (disk w) (pinecone w)
              (<[(dir, name) := default (mkCollection None ∅) (chroma w !! (dir, name))]>
                 (chroma w))
              (ledgers w)).
Proof.
  unfold Chroma, modify. destruct (chroma w !! (dir, name)) as [c|] eqn:Hc; [|done].
  cbn. rewrite insert_id by done. by destruct w.
Qed.

Lemma or_default_twice c :
  or_default (Some (or_default c "./.cache/database")) "./.cache/database"
  = or_default c "./.cache/database".
Proof. by destruct c as [[|]|]. Qed.

(** [VectorDB.__init__] on a backend other than Pinecone, in closed form. *)
Lemma init_other_eq cfg db name cache w :
  db ≠ "pinecone" →
  let dir := or_default cache "./.cache/database" in
  VectorDB_init cfg db name cache w
  = (Ok (mkVectorDB db name dir),
     mkWorld (makedirs dir (disk w)).2 (pinecone w)
       (<[(dir, name) := default (mkCollection None ∅) (chroma w !! (dir, name))]> (chroma w))
       (<[(db_url dir, namespace db name)
          := default ∅ (ledgers w !! (db_url dir, namespace db name))]> (ledgers w))).
Proof.
  intros Hdb dir.
  assert (or_default (Some dir) "./.cache/database" = dir) as Hdir
    by apply or_default_twice.
  unfold VectorDB_init, bind. fold dir.
  rewrite lift_disk_makedirs, decide_False by done.
  unfold setup_chroma, bind. rewrite Hdir.
  rewrite lift_disk_makedirs. cbn [disk pinecone chroma ledgers].
  rewrite makedirs_again, Chroma_eq. cbn [disk pinecone chroma ledgers].
  rewrite create_schema_eq. reflexivity.
Qed.

(** [VectorDB.__init__] on Pinecone, by the outcome of [setup_pinecone]. *)
Lemma init_pinecone_eq cfg name cache w :
  let dir := or_default cache "./.cache/database" in
  VectorDB_init cfg "pinecone" name cache w
  = match setup_pinecone name (embedding_dim cfg) "cosine" true (pinecone w) with
    | (Ok _, p') =>
        (Ok (mkVectorDB "pinecone" name dir),
         mkWorld (makedirs dir (disk w)).2 p' (chroma w)
           (<[(db_url dir, namespace "pinecone" name)
              := default ∅ (ledgers w !! (db_url dir, namespace "pinecone" name))]>
              (ledgers w)))
    | (Raise msg, p') =>
        (Raise msg, mkWorld (makedirs dir (disk w)).2 p' (chroma w) (ledgers w))
    end.
Proof.
  intros dir. unfold VectorDB_init, bind. fold dir.
  rewrite lift_disk_makedirs, decide_True by done.
  unfold lift_pinecone. cbn [disk pinecone chroma ledgers].
  destruct (setup_pinecone name _ _ _ (pinecone w)) as [[[]|msg] p']; [|done].
  rewrite create_schema_eq. reflexivity.
Qed.

(** X4: whatever [setup_pinecone] does to the index it was asked for, every
    other index of the service is left as it is.  On a service that answers
    all calls or none, it returns exactly when the service answers and either
    the serverless spec is asked for or the index is kept as it is: with
    [use_serverless=False], [PodSpec()] raises whenever an index has to be
    created, and then there is no index of that name afterwards; after a
    dimension mismatch the old one has been deleted. *)
Theorem setup_pinecone_frame name dim metric sl p other :
  other ≠ name →
  indexes (setup_pinecone name dim metric sl p).2 !! other = indexes p !! other
  ∧ is_ok (setup_pinecone name dim metric sl p).1
    = api_ok p && (sl || index_kept name dim p)
  ∧ (sl = false → api_ok p = true → index_kept name dim p = false →
     indexes (setup_pinecone name dim metric sl p).2 !! name = None).
Proof.
  intros Hne. unfold index_kept. destruct sl.
  - rewrite setup_pinecone_cases.
    destruct (api_ok p); [|done].
    destruct (indexes p !! name) as [ix|]; cbn.
    + destruct (describe_ok p); [|done].
      destruct (negb _ && negb _); cbn; [|done].
      by rewrite lookup_insert_ne.
    + by rewrite lookup_insert_ne.
  - rewrite setup_pinecone_pod_cases.
    destruct (api_ok p); [|done].
    destruct (indexes p !! name) as [ix|] eqn:Hix; cbn.
    + destruct (describe_ok p); cbn; [|done].
      destruct (negb _ && negb _); cbn; [|done].
      rewrite lookup_delete_ne by done. rewrite lookup_delete_eq. done.
    + done.
Qed.

Lemma setup_pinecone_frame_witness :
  indexes (setup_pinecone "docs" 3072 "cosine" false (pinecone Samples.pinecone_1536)).2
    !! "notes" = None
  ∧ is_ok (setup_pinecone "docs" 3072 "cosine" false (pinecone Samples.pinecone_1536)).1
    = false
  ∧ indexes (setup_pinecone "docs" 3072 "cosine" false (pinecone Samples.pinecone_1536)).2
      !! "docs" = None.
Proof.
  destruct (setup_pinecone_frame "docs" 3072 "cosine" false
              (pinecone Samples.pinecone_1536) "notes") as (Hother & Hok & Hgone);
    [discriminate|].
  split; [exact Hother|]. split; [exact Hok|].
  apply Hgone; reflexivity.
Defined.



(** X6: on Pinecone, when the service answers and has no index of that
    name, [VectorDB.__init__] creates it empty with the configured dimension,
    the cosine metric and the serverless spec, by one listing and one
    creation; the object it returns is connected to that empty index and to
    a ledger table that keeps the rows it had. *)
Theorem init_creates_missing_index cfg name cache w :
  api_ok (pinecone w) = true →
  indexes (pinecone w) !! name = None →
  ∃ db w',
    VectorDB_init cfg "pinecone" name cache w = (Ok db, w')
    ∧ indexes (pinecone w') !! name = Some (mkIndex (embedding_dim cfg) "cosine" true ∅)
    ∧ admin_log (pinecone w')
      = admin_log (pinecone w) ++ [ListIndexes; CreateIndex name (embedding_dim cfg)]
    ∧ read_vectors db w' = Some ∅
    ∧ read_ledger db w'
      = Some (default ∅ (ledgers w !! (db_url (or_default cache "./.cache/database"),
                                       namespace "pinecone" name))).
Proof.
  intros Hapi Hix. rewrite init_pinecone_eq, setup_pinecone_cases, Hapi, Hix.
  eexists _, _. split; [reflexivity|].
  unfold read_vectors, read_ledger. cbn.
  rewrite !lookup_insert_eq. done.
Qed.

Lemma init_creates_missing_index_witness :
  ∃ db w',
    VectorDB_init Samples.small_config "pinecone" "docs" None Samples.empty_world = (Ok db, w')
    ∧ indexes (pinecone w') !! "docs" = Some (mkIndex 1536 "cosine" true ∅)
    ∧ admin_log (pinecone w') = [ListIndexes; CreateIndex "docs" 1536]
    ∧ read_vectors db w' = Some ∅
    ∧ read_ledger db w' = Some ∅.
Proof.
  refine (init_creates_missing_index Samples.small_config "docs" None Samples.empty_world
            _ _); reflexivity.
Defined.

(** X7: on Pinecone, when the index exists and either [describe_index] does
    not answer, or the dimension it reports is 0 or the configured one,
    [VectorDB.__init__] deletes and creates nothing: all indexes are as they
    were, and the object it returns is connected to the vectors the index
    held. *)
Theorem init_keeps_compatible_index cfg name cache w ix :
  api_ok (pinecone w) = true →
  indexes (pinecone w) !! name = Some ix →
  describe_ok (pinecone w) = false ∨ dimension ix = 0 ∨ dimension ix = embedding_dim cfg →
  ∃ db w',
    VectorDB_init cfg "pinecone" name cache w = (Ok db, w')
    ∧ indexes (pinecone w') = indexes (pinecone w)
    ∧ admin_log (pinecone w')
      = admin_log (pinecone w)
          ++ ListIndexes :: (if describe_ok (pinecone w) then [DescribeIndex name] else [])
    ∧ read_vectors db w' = Some (vectors ix).
Proof.
  intros Hapi Hix Hcompat. rewrite init_pinecone_eq, setup_pinecone_cases, Hapi, Hix.
  destruct (describe_ok (pinecone w)) eqn:Hd.
  - assert (negb (dimension ix =? 0) && negb (dimension ix =? embedding_dim cfg) = false)
      as ->.
    { destruct Hcompat as [Hc|[Hc|Hc]]; [congruence| |]; rewrite Hc.
      - done.
      - by rewrite Nat.eqb_refl, andb_false_r. }
    eexists _, _. split; [reflexivity|].
    unfold read_vectors. cbn. by rewrite Hix.
  - eexists _, _. split; [reflexivity|].
    unfold read_vectors. cbn. by rewrite Hix.
Qed.

Lemma init_keeps_compatible_index_witness :
  ∃ db w',
    VectorDB_init Samples.small_config "pinecone" "docs" None Samples.pinecone_1536
    = (Ok db, w')
    ∧ indexes (pinecone w') = indexes (pinecone Samples.pinecone_1536)
    ∧ admin_log (pinecone w') = [ListIndexes; DescribeIndex "docs"]
    ∧ read_vectors db w' = Some {[ ("a.pdf", "alpha") := Samples.old_vector ]}.
Proof.
  refine (init_keeps_compatible_index Samples.small_config "docs" None Samples.pinecone_1536
            (mkIndex 1536 "cosine" true {[ ("a.pdf", "alpha") := Samples.old_vector ]})
            _ _ _).
  - reflexivity.
  - reflexivity.
  - right. right. reflexivity.
Defined.



(** X9: on any backend but Pinecone, when [VectorDB.__init__] returns, the
    object is connected to the collection of that name in the cache
    directory and to the ledger table of its namespace, both with what they
    held before (empty when they did not exist), and Pinecone is as it
    was: it is not called. *)
Theorem init_chroma_keeps_stores cfg db name cache w self w' :
  db ≠ "pinecone" →
  VectorDB_init cfg db name cache w = (Ok self, w') →
  self = mkVectorDB db name (or_default cache "./.cache/database")
  ∧ read_vectors self w'
    = Some (default ∅ (chroma_vectors
                         <$> chroma w !! (or_default cache "./.cache/database", name)))
  ∧ read_ledger self w'
    = Some (default ∅ (ledgers w !! (db_url (or_default cache "./.cache/database"),
                                     namespace db name)))
  ∧ pinecone w' = pinecone w.
Proof.
  intros Hdb. rewrite init_other_eq by done. intros [= <- <-].
  split; [done|].
  unfold read_vectors, read_ledger. cbn. rewrite decide_False by done.
  rewrite !lookup_insert_eq. split_and!; [|done|done].
  by destruct (chroma w !! _).
Qed.

Lemma init_chroma_keeps_stores_witness :
  read_vectors Samples.docs_db
    (VectorDB_init Samples.large_config "chroma" "docs" None Samples.chroma_1536).2
  = Some {[ ("a.pdf", "alpha") := Samples.old_vector ]}
  ∧ read_ledger Samples.docs_db
      (VectorDB_init Samples.large_config "chroma" "docs" None Samples.chroma_1536).2
    = Some ∅
  ∧ pinecone (VectorDB_init Samples.large_config "chroma" "docs" None Samples.chroma_1536).2
    = pinecone Samples.chroma_1536.
Proof.
  destruct (init_chroma_keeps_stores Samples.large_config "chroma" "docs" None
              Samples.chroma_1536 Samples.docs_db
              (VectorDB_init Samples.large_config "chroma" "docs" None Samples.chroma_1536).2)
    as (_ & Hv & Hl & Hp); [discriminate|reflexivity|].
  split; [exact Hv|]. split; [exact Hl|exact Hp].
Defined.

(** X10: on any backend but Pinecone, initializing again with the same
    arguments returns the same object and changes nothing at all. *)
Theorem init_chroma_idempotent cfg db name cache w self w' :
  db ≠ "pinecone" →
  VectorDB_init cfg db name cache w = (Ok self, w') →
  VectorDB_init cfg db name cache w' = (Ok self, w').
Proof.
  intros Hdb. rewrite !init_other_eq by done. intros [= <- <-].
  cbn [disk pinecone chroma ledgers].
  pose proof (makedirs_again (or_default cache "./.cache/database") (disk w)) as Hm.
  f_equal. f_equal.
  - exact (f_equal snd Hm).
  - rewrite lookup_insert_eq. cbn [default]. by rewrite insert_insert_eq.
  - rewrite lookup_insert_eq. cbn [default]. by rewrite insert_insert_eq.
Qed.

Lemma init_chroma_idempotent_witness :
  VectorDB_init Samples.small_config "chroma" "docs" None Samples.chroma_world
  = (Ok Samples.docs_db, Samples.chroma_world).
Proof.
  apply (init_chroma_idempotent Samples.small_config "chroma" "docs" None
           Samples.empty_world).
  - discriminate.
  - vm_compute. reflexivity.
Defined.

(** X11: when [VectorDB.__init__] recreates a Pinecone index for a
    dimension mismatch, it does not touch the ledger: the object it returns
    is connected to an empty index and to all the ledger rows of before, rows
    of vectors that are gone. *)
Theorem recreation_keeps_ledger_rows cfg name cache w ix l :
  api_ok (pinecone w) = true →
  describe_ok (pinecone w) = true →
  indexes (pinecone w) !! name = Some ix →
  dimension ix ≠ 0 →
  dimension ix ≠ embedding_dim cfg →
  ledgers w !! (db_url (or_default cache "./.cache/database"), namespace "pinecone" name)
    = Some l →
  ∃ db w',
    VectorDB_init cfg "pinecone" name cache w = (Ok db, w')
    ∧ read_vectors db w' = Some ∅
    ∧ read_ledger db w' = Some l.
Proof.
  intros Hapi Hd Hix H0 Hdim Hl.
  rewrite init_pinecone_eq, setup_pinecone_cases, Hapi, Hix, Hd.
  apply Nat.eqb_neq in H0, Hdim. rewrite H0, Hdim. cbn [negb andb].
  eexists _, _. split; [reflexivity|].
  unfold read_vectors, read_ledger. cbn. rewrite !lookup_insert_eq, Hl. done.
Qed.

Lemma recreation_keeps_ledger_rows_witness :
  ∃ db w',
    VectorDB_init Samples.large_config "pinecone" "docs" None
      (mkWorld (mkDisk ∅ 0) (pinecone Samples.pinecone_1536) ∅
         {[ (db_url "./.cache/database", "pinecone/docs")
            := {[ ("a.pdf", "alpha") := mkEntry "alpha" "docs" 1 ]} ]})
    = (Ok db, w')
    ∧ read_vectors db w' = Some ∅
    ∧ read_ledger db w' = Some {[ ("a.pdf", "alpha") := mkEntry "alpha" "docs" 1 ]}.
Proof.
  apply (recreation_keeps_ledger_rows Samples.large_config "docs" None
           (mkWorld (mkDisk ∅ 0) (pinecone Samples.pinecone_1536) ∅
              {[ (db_url "./.cache/database", "pinecone/docs")
                 := {[ ("a.pdf", "alpha") := mkEntry "alpha" "docs" 1 ]} ]})
           (mkIndex 1536 "cosine" true {[ ("a.pdf", "alpha") := Samples.old_vector ]})).
  - reflexivity.
  - reflexivity.
  - reflexivity.
  - cbn. lia.
  - cbn. lia.
  - vm_compute. reflexivity.
Defined.

End BackendFacts.

(** ** Theorems: the whole of [VectorDB.index] *)

Module IndexRunFacts.
Import Extract Chunker Backend Indexing Samples.

Lemma foldl_delete_all (ks : list string) (F : gmap string bytes) :
  dom F ⊆ list_to_set ks → foldl (λ F k, delete k F) F ks = ∅.
Proof.
  revert F. induction ks as [|k ks IH]; intros F HF; cbn.
  - apply dom_empty_inv_L. set_solver.
  - apply IH. rewrite dom_delete_L. set_solver.
Qed.

Lemma for_each_remove dir ks d F :
  dirs d !! dir = Some F →
  for_each ks (remove dir) d
  = (Ok tt, mkDisk (<[dir := foldl (λ F k, delete k F) F ks]> (dirs d)) (next_uuid d)).
Proof.
  revert d F. induction ks as [|k ks IH]; intros d F HF.
  - cbn. rewrite insert_id by done. by destruct d.
  - cbn [for_each foldl]. unfold bind, remove at 1, modify.
    rewrite (IH _ (delete k F)) by (cbn; by rewrite lookup_alter_eq, HF).
    cbn. by rewrite insert_alter_eq.
Qed.

(** The cleanup at the end of [VectorDB.index] removes the directory with all
    its files. *)
Lemma cleanup_removes_directory dir w files :
  dirs (disk w) !! dir = Some files →
  (let* fs := lift_disk (listdir dir) in
   let* _ := lift_disk (for_each fs (remove dir)) in
   lift_disk (rmdir dir)) w
  = (Ok tt, mkWorld (mkDisk (delete dir (dirs (disk w))) (next_uuid (disk w)))
              (pinecone w) (chroma w) (ledgers w)).
Proof.
  intros Hd. unfold bind, lift_disk, listdir. rewrite Hd. cbn [disk pinecone chroma ledgers].
  rewrite (for_each_remove dir _ (disk w) files Hd).
  rewrite foldl_delete_all by (by rewrite list_to_set_elements_L).
  unfold rmdir. cbn. rewrite lookup_insert_eq.
  rewrite decide_True by done. by rewrite delete_insert_eq.
Qed.

Lemma read_ledger_written self l w :
  read_ledger self (write_ledger self l w) = Some l.
Proof. unfold read_ledger, write_ledger. cbn. apply lookup_insert_eq. Qed.

Lemma read_vectors_written self vs vs0 w :
  read_vectors self w = Some vs0 →
  read_vectors self (write_vectors self vs w) = Some vs.
Proof.
  unfold read_vectors, write_vectors.
  destruct (decide (db_name self = "pinecone")); cbn; rewrite lookup_alter_eq;
    intros H; by destruct (_ !! _).
Qed.

Lemma disk_write_vectors self vs w : disk (write_vectors self vs w) = disk w.
Proof. unfold write_vectors. by destruct (decide _). Qed.

Lemma read_vectors_write_ledger self l w :
  read_vectors self (write_ledger self l w) = read_vectors self w.
Proof. reflexivity. Qed.

Section Run.
Variable loader : string → gmap string bytes → result (list Document).
Variable split_documents : nat → nat → list Document → result (list Document).
Variable index : list Document → M State Counts.

(** [VectorDB.index] once the upload is extracted, loaded and split and the
    stores of the object are found: by the outcome of the indexing routine. *)
Lemma index_run_eq (self : VectorDB) u w dir d1 docs chunks l vs :
  extract_pdf u (disk w) = (Ok dir, d1) →
  (load_pdf_directory loader dir d1).1 = Ok docs →
  split_pdf split_documents docs = Ok chunks →
  read_ledger self w = Some l →
  read_vectors self w = Some vs →
  VectorDB_index loader split_documents index self u w
  = let w1 := write_ledger self (ledger (index chunks (mkState l vs)).2)
                (write_vectors self (vstore (index chunks (mkState l vs)).2)
                   (mkWorld d1 (pinecone w) (chroma w) (ledgers w))) in
    match (index chunks (mkState l vs)).1 with
    | Ok _ =>
        (Ok tt, mkWorld (mkDisk (delete dir (dirs d1)) (next_uuid d1))
                  (pinecone w1) (chroma w1) (ledgers w1))
    | Raise msg => (Raise ("Failed to index document: " +:+ msg), w1)
    end.
Proof.
  intros He Hl Hs Hrl Hrv.
  destruct (PdfHandlerFacts.extract_pdf_ok_files u (disk w) d1 dir He)
    as (_ & _ & files & Hd1 & _).
  assert (dirs d1 !! dir = Some files) as Hdir by (by rewrite Hd1, lookup_insert_eq).
  unfold load_pdf_directory in Hl. rewrite Hdir in Hl. cbn in Hl.
  unfold VectorDB_index, try_except.
  unfold bind at 1. unfold lift_disk at 1. rewrite He.
  unfold bind at 1. unfold lift_disk at 1, load_pdf_directory.
  cbn [disk pinecone chroma ledgers]. rewrite Hdir, Hl.
  unfold bind at 1. unfold lift_result. rewrite Hs.
  unfold bind at 1. unfold call_index.
  change (read_ledger self (mkWorld d1 (pinecone w) (chroma w) (ledgers w)))
    with (read_ledger self w).
  change (read_vectors self (mkWorld d1 (pinecone w) (chroma w) (ledgers w)))
    with (read_vectors self w).
  rewrite Hrl, Hrv.
  destruct (index chunks (mkState l vs)) as [[n|msg] s']; cbn [fst snd]; [|done].
  rewrite (cleanup_removes_directory dir _ files)
    by (cbn; by rewrite disk_write_vectors).
  cbn [write_ledger disk pinecone chroma ledgers].
  by rewrite !disk_write_vectors.
Qed.

(** X12: when the upload is extracted, loaded and split, the stores of the
    object are found and the indexing routine returns, [VectorDB.index]
    returns; the ledger and the vectors of the object are those the routine
    left, and the temporary directory is removed: the directories on disk are
    those from before the call. *)
Theorem index_run_succeeds (self : VectorDB) u w dir d1 docs chunks l vs n s' :
  extract_pdf u (disk w) = (Ok dir, d1) →
  (load_pdf_directory loader dir d1).1 = Ok docs →
  split_pdf split_documents docs = Ok chunks →
  read_ledger self w = Some l →
  read_vectors self w = Some vs →
  index chunks (mkState l vs) = (Ok n, s') →
  ∃ w', VectorDB_index loader split_documents index self u w = (Ok tt, w')
        ∧ read_ledger self w' = Some (ledger s')
        ∧ read_vectors self w' = Some (vstore s')
        ∧ dirs (disk w') = dirs (disk w).
Proof.
  intros He Hl Hs Hrl Hrv Hi.
  rewrite (index_run_eq self u w dir d1 docs chunks l vs He Hl Hs Hrl Hrv), Hi.
  cbn [fst snd]. eexists. split; [reflexivity|].
  split; [apply read_ledger_written|].
  split.
  - change (read_vectors self ?w0) with
      (read_vectors self (write_vectors self (vstore s')
                            (mkWorld d1 (pinecone w) (chroma w) (ledgers w)))).
    by apply (read_vectors_written self (vstore s') vs).
  - cbn [disk dirs].
    destruct (PdfHandlerFacts.extract_pdf_ok_files u (disk w) d1 dir He)
      as (Hfresh & _ & files & -> & _).
    by apply delete_insert_id.
Qed.

(** X13: when the indexing routine raises, [VectorDB.index] raises [Failed
    to index document: ...] without cleaning up: the temporary directory,
    which did not exist before the call, is left on disk with the extracted
    files, and the stores hold what the routine had written before it
    raised. *)
Theorem index_failure_leaves_directory (self : VectorDB) u w dir d1 docs chunks l vs msg s' :
  extract_pdf u (disk w) = (Ok dir, d1) →
  (load_pdf_directory loader dir d1).1 = Ok docs →
  split_pdf split_documents docs = Ok chunks →
  read_ledger self w = Some l →
  read_vectors self w = Some vs →
  index chunks (mkState l vs) = (Raise msg, s') →
  ∃ w', VectorDB_index loader split_documents index self u w
        = (Raise ("Failed to index document: " +:+ msg), w')
        ∧ dirs (disk w) !! dir = None
        ∧ (∃ files, dirs (disk w') !! dir = Some files
                    ∧ size files = length (normalize u))
        ∧ read_ledger self w' = Some (ledger s')
        ∧ read_vectors self w' = Some (vstore s').
Proof.
  intros He Hl Hs Hrl Hrv Hi.
  rewrite (index_run_eq self u w dir d1 docs chunks l vs He Hl Hs Hrl Hrv), Hi.
  cbn [fst snd]. eexists. split; [reflexivity|].
  destruct (PdfHandlerFacts.extract_pdf_ok_files u (disk w) d1 dir He)
    as (Hfresh & _ & files & Hd1 & Hsz).
  split; [done|]. split.
  - exists files. cbn [write_ledger disk]. rewrite disk_write_vectors. cbn [disk].
    by rewrite Hd1, lookup_insert_eq.
  - split; [apply read_ledger_written|].
    rewrite read_vectors_write_ledger.
    by apply (read_vectors_written self (vstore s') vs).
Qed.

(** X14: when the loader raises on the extracted directory, [VectorDB.index]
    raises [Failed to index document: ...] before the splitter and the
    indexing routine are called: ledgers, collections and indexes are as they
    were, and the temporary directory is left on disk with the extracted
    files. *)
Theorem loader_failure_leaves_directory (self : VectorDB) u w dir d1 msg :
  extract_pdf u (disk w) = (Ok dir, d1) →
  (load_pdf_directory loader dir d1).1 = Raise msg →
  ∃ w', VectorDB_index loader split_documents index self u w
        = (Raise ("Failed to index document: " +:+ msg), w')
        ∧ dirs (disk w) !! dir = None
        ∧ (∃ files, dirs (disk w') !! dir = Some files
                    ∧ size files = length (normalize u))
        ∧ ledgers w' = ledgers w ∧ chroma w' = chroma w ∧ pinecone w' = pinecone w.
Proof.
  intros He Hl.
  destruct (PdfHandlerFacts.extract_pdf_ok_files u (disk w) d1 dir He)
    as (Hfresh & _ & files & Hd1 & Hsz).
  assert (dirs d1 !! dir = Some files) as Hdir by (by rewrite Hd1, lookup_insert_eq).
  unfold load_pdf_directory in Hl. rewrite Hdir in Hl. cbn in Hl.
  rewrite (IndexingFacts.VectorDB_index_loader_raise loader split_documents index
             self u w dir d1 files msg He Hdir Hl).
  eexists. split; [reflexivity|]. cbn. split; [done|]. split; [eauto|done].
Qed.

End Run.

Lemma index_run_succeeds_witness :
  ∃ w', VectorDB_index page_loader split_documents_spec (reconcile_at 1) docs_db
          (Single good_pdf) chroma_world = (Ok tt, w')
        ∧ read_ledger docs_db w'
          = Some {[ ("pdf_extract_/0_good.pdf", "hi") := mkEntry "hi" "docs" 1 ]}
        ∧ (size <$> read_vectors docs_db w') = Some 1
        ∧ dirs (disk w') = dirs (disk chroma_world).
Proof.
  set (d1 := (extract_pdf (Single good_pdf) (disk chroma_world)).2).
  set (docs := [mkDocument "hi" "pdf_extract_/0_good.pdf" 0]).
  set (s' := (reconcile_at 1 docs init_state).2).
  destruct (index_run_succeeds page_loader split_documents_spec (reconcile_at 1)
              docs_db (Single good_pdf) chroma_world "pdf_extract_" d1 docs docs ∅ ∅
              (mkCounts 1 0 0) s')
    as (w' & Hrun & Hl & Hv & Hd); try (vm_compute; reflexivity).
  exists w'. split; [exact Hrun|]. split; [|split; [|exact Hd]].
  - rewrite Hl. vm_compute. reflexivity.
  - rewrite Hv. vm_compute. reflexivity.
Defined.

Lemma index_failure_leaves_directory_witness :
  ∃ w', VectorDB_index page_loader split_documents_spec (λ _, raise "rate limited") docs_db
          (Single good_pdf) chroma_world
        = (Raise "Failed to index document: rate limited", w')
        ∧ dirs (disk chroma_world) !! "pdf_extract_" = None
        ∧ (∃ files, dirs (disk w') !! "pdf_extract_" = Some files ∧ size files = 1)
        ∧ read_ledger docs_db w' = Some ∅
        ∧ read_vectors docs_db w' = Some ∅.
Proof.
  set (d1 := (extract_pdf (Single good_pdf) (disk chroma_world)).2).
  set (docs := [mkDocument "hi" "pdf_extract_/0_good.pdf" 0]).
  refine (index_failure_leaves_directory page_loader split_documents_spec
            (λ _, raise "rate limited") docs_db (Single good_pdf) chroma_world
            "pdf_extract_" d1 docs docs ∅ ∅ "rate limited" init_state _ _ _ _ _ _);
    vm_compute; reflexivity.
Defined.

Lemma loader_failure_leaves_directory_witness :
  ∃ w', VectorDB_index (λ _ _, Raise "not a PDF") split_documents_spec (reconcile_at 1)
          docs_db (Single good_pdf) chroma_world
        = (Raise "Failed to index document: not a PDF", w')
        ∧ dirs (disk chroma_world) !! "pdf_extract_" = None
        ∧ (∃ files, dirs (disk w') !! "pdf_extract_" = Some files ∧ size files = 1)
        ∧ ledgers w' = ledgers chroma_world ∧ chroma w' = chroma chroma_world
        ∧ pinecone w' = pinecone chroma_world.
Proof.
  set (d1 := (extract_pdf (Single good_pdf) (disk chroma_world)).2).
  refine (loader_failure_leaves_directory (λ _ _, Raise "not a PDF") split_documents_spec
            (reconcile_at 1) docs_db (Single good_pdf) chroma_world
            "pdf_extract_" d1 "not a PDF" _ _);
    vm_compute; reflexivity.
Defined.

End IndexRunFacts.

(** ** Theorems: the callbacks and the script of [app.py] *)

Module UiFacts.
Import App Ui.

Lemma env_set_true env k :
  env_set env k = true ↔ ∃ c r, env !! k = Some (String c r).
Proof.
  unfold env_set. destruct (env !! k) as [[|c r]|]; split; try done.
  - by intros (? & ? & ?).
  - eauto.
  - by intros (? & ? & ?).
Qed.

(** X15: [check_environment_variables] reports nothing exactly when
    [OPENAI_API_KEY] is set to a string that is not empty and, if the
    selected database is Pinecone (the default when none is selected),
    [PINECONE_API_KEY] is too; with another database selected
    [PINECONE_API_KEY] is never reported. *)
Theorem check_environment_variables_empty env database_type :
  (check_environment_variables env database_type = []
   ↔ env_set env "OPENAI_API_KEY" = true
     ∧ (default "pinecone" database_type = "pinecone"
        → env_set env "PINECONE_API_KEY" = true))
  ∧ ("PINECONE_API_KEY" ∈ check_environment_variables env database_type
     → default "pinecone" database_type = "pinecone"
       ∧ env_set env "PINECONE_API_KEY" = false).
Proof.
  unfold check_environment_variables. split.
  - destruct (env_set env "OPENAI_API_KEY"),
      (decide (default "pinecone" database_type = "pinecone")) as [Hp|Hp],
      (env_set env "PINECONE_API_KEY"); cbn; split; try done.
    + intros [_ Hk]. by specialize (Hk Hp).
    + by intros [? _].
    + by intros [? _].
    + by intros [? _].
    + by intros [? _].
  - rewrite elem_of_app.
    destruct (env_set env "OPENAI_API_KEY"),
      (decide (default "pinecone" database_type = "pinecone")) as [Hp|Hp],
      (env_set env "PINECONE_API_KEY"); cbn;
      rewrite ?elem_of_cons, ?elem_of_nil; intros Hin; try done;
      destruct Hin as [Hin|Hin]; try done;
      destruct Hin as [Hin|Hin]; done.
Qed.

Lemma check_environment_variables_empty_witness :
  check_environment_variables {[ "OPENAI_API_KEY" := "sk" ]} (Some "chroma") = [].
Proof.
  apply (check_environment_variables_empty {[ "OPENAI_API_KEY" := "sk" ]} (Some "chroma")).
  split; [reflexivity|]. cbn. discriminate.
Defined.

Section Chain.
Context {W Chain : Type}.
Variable OpenAIChain : M W Chain.
Variable OpenAIRAGChain : PyFile → string → M W Chain.

Lemma load_chain_body_returns pdf f db w :
  ∃ r w', load_chain_body OpenAIChain OpenAIRAGChain pdf f db w = (Ok r, w').
Proof.
  unfold load_chain_body, try_except, bind, ret.
  destruct pdf, f as [f|]; cbn.
  - destruct (OpenAIRAGChain f db w) as [[c|msg] w']; eauto.
  - destruct (OpenAIChain w) as [[c|msg] w']; eauto.
  - destruct (OpenAIChain w) as [[c|msg] w']; eauto.
  - destruct (OpenAIChain w) as [[c|msg] w']; eauto.
Qed.

Lemma cache_lookup_head (k : CacheKey) (r : option Chain) c :
  cache_lookup k ((k, r) :: c) = Some r.
Proof. unfold cache_lookup. cbn. by rewrite bool_decide_eq_true_2. Qed.

Lemma cache_lookup_hit (k : CacheKey) (r : option Chain) c :
  cache_lookup k c = Some r → ∀ w : W, load_chain OpenAIChain OpenAIRAGChain c k.1.1 k.1.2 k.2 w = (Ok (r, c), w).
Proof.
  intros Hk w. unfold load_chain. destruct k as [[pdf f] db]. cbn. by rewrite Hk.
Qed.

(** X16: [load_chain] never raises: a chain that cannot be built is [None].
    Called again with the cache it returned and the same arguments, it
    returns the same chain, or the same [None], from the cache, without
    building anything: whatever the world is, it is not touched. *)
Theorem load_chain_cached c pdf f db w :
  ∃ r c' w',
    load_chain OpenAIChain OpenAIRAGChain c pdf f db w = (Ok (r, c'), w')
    ∧ ∀ w2, load_chain OpenAIChain OpenAIRAGChain c' pdf f db w2 = (Ok (r, c'), w2).
Proof.
  unfold load_chain at 1.
  destruct (cache_lookup (pdf, f, db) c) as [r|] eqn:Hk.
  - exists r, c, w. split; [done|].
    intros w2. by apply (cache_lookup_hit (pdf, f, db)).
  - unfold bind.
    destruct (load_chain_body_returns pdf f db w) as (r & w' & ->).
    exists r, ((pdf, f, db, r) :: c), w'. split; [done|].
    intros w2. apply (cache_lookup_hit (pdf, f, db)), cache_lookup_head.
Qed.

Variable update_chain : Chain → PyFile → M W unit.

(** [main_update] once the chain is loaded and there are uploads. *)
Lemma main_update_loaded db (st : @Session Chain) w chain c' w1 first rest :
  load_chain OpenAIChain OpenAIRAGChain (cache st) (pdf_chat st)
    (head (uploaded_file st)) db w = (Ok (Some chain, c'), w1) →
  uploaded_file st = first :: rest →
  main_update OpenAIChain OpenAIRAGChain update_chain db st w
  = if knowledge_change st
    then match update_chain chain first w1 with
         | (Ok _, w2) => (Ok (mkOutcome false c' ["Knowledge base updated successfully!"]), w2)
         | (Raise e, w2) =>
             (Ok (mkOutcome false c'
                    (("Failed to update knowledge base: " +:+ e)
                     :: if decide (db = "pinecone")
                        then ["This might be due to Pinecone configuration issues. Try switching to Chroma in the sidebar."]
                        else [])), w2)
         end
    else (Ok (mkOutcome false c' []), w1).
Proof.
  intros Hl Hu. unfold main_update, try_except at 1, bind at 1.
  rewrite Hl, Hu. cbn [fst snd].
  destruct (knowledge_change st) eqn:Hk; [|done].
  unfold try_except, bind, ret.
  by destruct (update_chain chain first w1) as [[[]|e] w2].
Qed.

(** X17: when a chain is loaded and there are uploads, [main_update]
    returns with [knowledge_change] cleared, whether [update_chain] returned
    or raised: a failed update is shown and not tried again on the next
    run. *)
Theorem main_update_clears_flag db (st : @Session Chain) w chain c' w1 :
  load_chain OpenAIChain OpenAIRAGChain (cache st) (pdf_chat st)
    (head (uploaded_file st)) db w = (Ok (Some chain, c'), w1) →
  uploaded_file st ≠ [] →
  ∃ o w', main_update OpenAIChain OpenAIRAGChain update_chain db st w = (Ok o, w')
          ∧ knowledge_change' o = false
          ∧ cache' o = c'.
Proof.
  intros Hl Hu.
  assert (∃ first rest, uploaded_file st = first :: rest) as (first & rest & Hup)
    by (destruct (uploaded_file st); [done|eauto]).
  rewrite (main_update_loaded db st w chain c' w1 first rest Hl Hup).
  destruct (knowledge_change st); [|eauto].
  destruct (update_chain chain first w1) as [[[]|e] w2]; eauto.
Qed.

(** X18: [main_update] calls [update_chain] only when [knowledge_change] is
    set and there are uploads: otherwise what it returns and what it does to
    the world do not depend on [update_chain]. *)
Theorem main_update_without_change (update_chain' : Chain → PyFile → M W unit)
    db (st : @Session Chain) w :
  knowledge_change st = false ∨ uploaded_file st = [] →
  main_update OpenAIChain OpenAIRAGChain update_chain db st w
  = main_update OpenAIChain OpenAIRAGChain update_chain' db st w.
Proof.
  intros Hno. unfold main_update, try_except at 1 3, bind at 1 3.
  destruct (load_chain _ _ _ _ _ _ w) as [[[[chain|] c']|msg] w1]; cbn [fst snd]; try done.
  destruct (uploaded_file st) as [|first rest]; [done|].
  destruct Hno as [->|?]; done.
Qed.

End Chain.

Lemma main_update_clears_flag_witness :
  ∃ o w',
    main_update log_plain log_rag log_update "chroma"
      (mkSession true [Samples.good_pdf; OtherObject] true []) []
    = (Ok o, w')
    ∧ knowledge_change' o = false
    ∧ cache' o = [((true, Some Samples.good_pdf, "chroma"), Some tt)].
Proof.
  refine (main_update_clears_flag log_plain log_rag log_update "chroma"
            (mkSession true [Samples.good_pdf; OtherObject] true []) [] tt
            [((true, Some Samples.good_pdf, "chroma"), Some tt)]
            [(true, Samples.good_pdf)] _ _).
  - reflexivity.
  - discriminate.
Defined.

Lemma main_update_without_change_witness :
  main_update log_plain log_rag log_update "chroma"
    (mkSession true [Samples.good_pdf] false []) []
  = main_update log_plain log_rag (λ _ _, raise "unused") "chroma"
      (mkSession true [Samples.good_pdf] false []) [].
Proof.
  apply (main_update_without_change log_plain log_rag log_update (λ _ _, raise "unused")
           "chroma" (mkSession true [Samples.good_pdf] false []) []).
  left. reflexivity.
Defined.

Section Script.
Context {W Chain : Type}.
Variable OpenAIChain : M W Chain.
Variable OpenAIRAGChain : PyFile → string → M W Chain.
Variable update_chain : Chain → PyFile → M W unit.
Variable run : Chain → string → M W string.

(** A run of [main] in a session that an earlier run has initialised, with
    no question pending, the variables set, uploads present and
    [knowledge_change] set: once the chain is loaded, [update_chain] is
    called on the first upload and the flag is cleared. *)
Lemma main_updates env (st : @Session Chain) q inp dbt w chain c' w1 f rest :
  check_environment_variables env dbt = [] →
  knowledge_change st = true →
  uploaded_file st = f :: rest →
  load_chain OpenAIChain OpenAIRAGChain (cache st) (pdf_chat st) (Some f)
    (default "pinecone" dbt) w = (Ok (Some chain, c'), w1) →
  main OpenAIChain OpenAIRAGChain update_chain run env (mkUi st (Some false) q inp dbt) w
  = (Ok (mkUi (mkSession (pdf_chat st) (f :: rest) false c') (Some false) q inp dbt,
         update_messages (default "pinecone" dbt) (update_chain chain f w1).1),
     (update_chain chain f w1).2).
Proof.
  intros Hc Hk Hu Hl. unfold main. cbn [database_type send_input session].
  rewrite Hc. unfold try_except at 1, bind at 1. rewrite Hu. cbn [head].
  rewrite Hl. cbn [fst snd].
  unfold bind at 1, update_knowledge. rewrite Hk, Hu.
  unfold try_except, bind at 1, ret.
  destruct (update_chain chain f w1) as [[[]|e] w2]; cbn.
  - unfold set_knowledge_change, set_cache. cbn. by rewrite Hu.
  - unfold set_knowledge_change, set_cache. cbn. rewrite Hu.
    by rewrite app_nil_r.
Qed.

(** X19: after [file_uploader_change] on a list of uploads that is not
    empty, PDF chat is on; and in a session that an earlier run of [main]
    has initialised ([send_input] is there, no question is pending), the next
    run of [main] with the variables set, once the chain is loaded, calls
    [update_chain] on the first upload and clears [knowledge_change],
    whatever [pdf_chat] and [knowledge_change] were before. *)
Theorem upload_is_indexed_on_next_run env (st : @Session Chain) q inp dbt f rest
    w chain c' w1 :
  uploaded_file st = f :: rest →
  check_environment_variables env dbt = [] →
  load_chain OpenAIChain OpenAIRAGChain (cache (file_uploader_change st)) true (Some f)
    (default "pinecone" dbt) w = (Ok (Some chain, c'), w1) →
  pdf_chat (file_uploader_change st) = true
  ∧ main OpenAIChain OpenAIRAGChain update_chain run env
      (mkUi (file_uploader_change st) (Some false) q inp dbt) w
    = (Ok (mkUi (mkSession true (f :: rest) false c') (Some false) q inp dbt,
           update_messages (default "pinecone" dbt) (update_chain chain f w1).1),
       (update_chain chain f w1).2).
Proof.
  intros Hu Hc Hl.
  assert (pdf_chat (file_uploader_change st) = true
          ∧ knowledge_change (file_uploader_change st) = true
          ∧ uploaded_file (file_uploader_change st) = f :: rest) as (Hp & Hk & Hu').
  { unfold file_uploader_change. rewrite Hu. by destruct (pdf_chat st) eqn:Hp. }
  split; [done|].
  rewrite (main_updates env (file_uploader_change st) q inp dbt w chain c' w1 f rest);
    [by rewrite Hp|done|done|done|by rewrite Hp].
Qed.

(** X20: after [database_change], and after [toggle_pdf_chat_change], with
    PDF chat on and uploads present, the cache is empty: in a session that
    an earlier run has initialised, the next run of [main] builds the chain
    again for the first upload, and when that succeeds it calls
    [update_chain] on the first upload once more. *)
Theorem database_change_rebuilds env (st : @Session Chain) q inp dbt f rest w chain w1 :
  pdf_chat st = true →
  uploaded_file st = f :: rest →
  check_environment_variables env dbt = [] →
  load_chain_body OpenAIChain OpenAIRAGChain true (Some f) (default "pinecone" dbt) w
    = (Ok (Some chain), w1) →
  main OpenAIChain OpenAIRAGChain update_chain run env
    (mkUi (database_change st) (Some false) q inp dbt) w
  = (Ok (mkUi (mkSession true (f :: rest) false
                 [((true, Some f, default "pinecone" dbt), Some chain)])
           (Some false) q inp dbt,
         update_messages (default "pinecone" dbt) (update_chain chain f w1).1),
     (update_chain chain f w1).2)
  ∧ main OpenAIChain OpenAIRAGChain update_chain run env
      (mkUi (toggle_pdf_chat_change st) (Some false) q inp dbt) w
    = (Ok (mkUi (mkSession true (f :: rest) false
                   [((true, Some f, default "pinecone" dbt), Some chain)])
             (Some false) q inp dbt,
           update_messages (default "pinecone" dbt) (update_chain chain f w1).1),
       (update_chain chain f w1).2).
Proof.
  intros Hp Hu Hc Hb.
  assert (database_change st = mkSession true (f :: rest) true []) as ->.
  { unfold database_change, clear_cache, set_knowledge_change. cbn. by rewrite Hp, Hu. }
  assert (toggle_pdf_chat_change st = mkSession true (f :: rest) true []) as ->.
  { unfold toggle_pdf_chat_change, clear_cache, set_knowledge_change. cbn. by rewrite Hp, Hu. }
  assert (main OpenAIChain OpenAIRAGChain update_chain run env
            (mkUi (mkSession true (f :: rest) true []) (Some false) q inp dbt) w
          = (Ok (mkUi (mkSession true (f :: rest) false
                         [((true, Some f, default "pinecone" dbt), Some chain)])
                   (Some false) q inp dbt,
                 update_messages (default "pinecone" dbt) (update_chain chain f w1).1),
             (update_chain chain f w1).2)) as ->; [|done].
  apply (main_updates env (mkSession true (f :: rest) true []) q inp dbt w chain
           [((true, Some f, default "pinecone" dbt), Some chain)] w1 f rest);
    [done|done|done|].
  unfold load_chain. cbn. unfold bind. by rewrite Hb.
Qed.

(** X24: the first run of [main] that gets past the check of the
    environment ([send_input] is not yet in the session state) calls
    [initial_session_state], which clears [knowledge_change] before the
    update is considered: what the run returns and does to the world does
    not depend on [update_chain], which is not called, and the flag is
    cleared afterwards.  An upload made while a variable was missing is not
    passed to [update_chain] by that run. *)
Theorem first_run_skips_update (update_chain' : Chain → PyFile → M W unit)
    env (ui : @UiState Chain) w :
  send_input ui = None →
  main OpenAIChain OpenAIRAGChain update_chain run env ui w
  = main OpenAIChain OpenAIRAGChain update_chain' run env ui w
  ∧ (check_environment_variables env (database_type ui) = [] →
     ∀ ui' shown w',
       main OpenAIChain OpenAIRAGChain update_chain run env ui w = (Ok (ui', shown), w') →
       knowledge_change (session ui') = false).
Proof.
  destruct ui as [st si q inp dbt]. cbn [send_input database_type]. intros ->.
  split; [reflexivity|].
  intros Hc ui' shown w'. unfold main. cbn [send_input database_type]. rewrite Hc.
  unfold initial_session_state, update_knowledge.
  cbn [session send_input user_question user_input database_type knowledge_change
       set_knowledge_change pdf_chat uploaded_file cache].
  unfold try_except, bind, ret.
  destruct (load_chain _ _ _ _ _ _ w) as [[[[chain|] c']|e] w1]; cbn [fst snd].
  - destruct (handle_input run chain _ w1) as [[i|e] w2]; by intros [= <- _ _].
  - by intros [= <- _ _].
  - by intros [= <- _ _].
Qed.

Lemma update_knowledge_returns db chain (st : @Session Chain) w :
  ∃ kc w', update_knowledge update_chain db chain st w = (Ok kc, w').
Proof.
  unfold update_knowledge.
  destruct (knowledge_change st), (uploaded_file st) as [|first ?]; cbn; eauto.
  unfold try_except, bind, ret.
  destruct (update_chain chain first w) as [[[]|e] w2]; eauto.
Qed.

Lemma handle_input_returns chain (ui : @UiState Chain) w :
  ∃ inp w', handle_input run chain ui w = (Ok inp, w')
            ∧ (send_input ui = Some true → user_question ui ≠ ""
               → inp.1 = (Some false, "")).
Proof.
  unfold handle_input.
  destruct (send_input ui) as [[|]|], (user_question ui) as [|c q]; cbn;
    try (eexists _, _; split; [reflexivity|]; by intros).
  unfold bind, try_except, ret.
  destruct (run chain (String c q) w) as [[resp|e] w2];
    eexists _, _; (split; [reflexivity|done]).
Qed.

(** X21: when a required environment variable is missing, [main] stops
    after showing what is missing: no chain is built or looked up, and the
    session state and the world are as they were. *)
Theorem main_stops_without_keys env (ui : @UiState Chain) w :
  check_environment_variables env (database_type ui) ≠ [] →
  main OpenAIChain OpenAIRAGChain update_chain run env ui w
  = (Ok (ui, missing_messages (check_environment_variables env (database_type ui))), w).
Proof.
  intros Hmiss. unfold main.
  by destruct (check_environment_variables env (database_type ui)).
Qed.

(** X22: when the variables are set, the chain loads and a question is
    pending, [main] returns with the question and the flag reset, whether
    the chain answered or raised; a question is handled in one run only. *)
Theorem main_consumes_question env (ui : @UiState Chain) w chain c' w1 :
  check_environment_variables env (database_type ui) = [] →
  send_input ui = Some true →
  user_question ui ≠ "" →
  load_chain OpenAIChain OpenAIRAGChain (cache (session ui)) (pdf_chat (session ui))
    (head (uploaded_file (session ui))) (default "pinecone" (database_type ui)) w
    = (Ok (Some chain, c'), w1) →
  ∃ ui' shown w',
    main OpenAIChain OpenAIRAGChain update_chain run env ui w = (Ok (ui', shown), w')
    ∧ send_input ui' = Some false
    ∧ user_question ui' = ""
    ∧ cache (session ui') = c'.
Proof.
  intros Hc Hs Hq Hl. unfold main. rewrite Hc, Hs.
  unfold try_except, bind at 1. rewrite Hl. cbn [fst snd].
  unfold bind at 1.
  destruct (update_knowledge_returns (default "pinecone" (database_type ui)) chain
              (session ui) w1) as (kc & w2 & ->).
  unfold bind at 1.
  destruct (handle_input_returns chain ui w2) as (inp & w3 & -> & Hinp).
  specialize (Hinp Hs Hq). destruct inp as [[si q] shown]. cbn in Hinp.
  injection Hinp as -> ->.
  eexists _, _, _. split; [reflexivity|]. done.
Qed.

(** X23: [main] never raises: whatever the chain classes do, it returns a
    session state and the messages to show. *)
Theorem main_never_raises env (ui : @UiState Chain) w :
  ∃ ui' shown w',
    main OpenAIChain OpenAIRAGChain update_chain run env ui w = (Ok (ui', shown), w').
Proof.
  unfold main.
  destruct (check_environment_variables env (database_type ui)); [|by eexists _, _, _].
  unfold try_except.
  match goal with
  | |- context [bind ?m ?k w] => destruct (bind m k w) as [[[ui' shown]|e] w']
  end; by eexists _, _, _.
Qed.

End Script.

Lemma upload_is_indexed_on_next_run_witness :
  pdf_chat (file_uploader_change
              (mkSession (Chain := unit) false [Samples.good_pdf; OtherObject] false [])) = true
  ∧ main log_plain log_rag log_update (λ _ q, ret q) {[ "OPENAI_API_KEY" := "sk" ]}
      (mkUi (file_uploader_change (mkSession false [Samples.good_pdf; OtherObject] false []))
         (Some false) "" "" (Some "chroma")) []
    = (Ok (mkUi (mkSession true [Samples.good_pdf; OtherObject] false
                   [((true, Some Samples.good_pdf, "chroma"), Some tt)])
             (Some false) "" "" (Some "chroma"),
           ["Knowledge base updated successfully!"]),
       [(true, Samples.good_pdf); (false, Samples.good_pdf)]).
Proof.
  refine (upload_is_indexed_on_next_run log_plain log_rag log_update (λ _ q, ret q)
            {[ "OPENAI_API_KEY" := "sk" ]}
            (mkSession false [Samples.good_pdf; OtherObject] false [])
            "" "" (Some "chroma") Samples.good_pdf [OtherObject] [] tt
            [((true, Some Samples.good_pdf, "chroma"), Some tt)]
            [(true, Samples.good_pdf)] _ _ _).
  - reflexivity.
  - vm_compute. reflexivity.
  - reflexivity.
Defined.

Lemma database_change_rebuilds_witness :
  main log_plain log_rag log_update (λ _ q, ret q) {[ "OPENAI_API_KEY" := "sk" ]}
    (mkUi (database_change
             (mkSession true [Samples.good_pdf] false
                [((true, Some Samples.good_pdf, "pinecone"), Some tt)]))
       (Some false) "" "" (Some "chroma")) []
  = (Ok (mkUi (mkSession true [Samples.good_pdf] false
                 [((true, Some Samples.good_pdf, "chroma"), Some tt)])
           (Some false) "" "" (Some "chroma"),
         ["Knowledge base updated successfully!"]),
     [(true, Samples.good_pdf); (false, Samples.good_pdf)])
  ∧ main log_plain log_rag log_update (λ _ q, ret q) {[ "OPENAI_API_KEY" := "sk" ]}
      (mkUi (toggle_pdf_chat_change
               (mkSession true [Samples.good_pdf] false
                  [((true, Some Samples.good_pdf, "pinecone"), Some tt)]))
         (Some false) "" "" (Some "chroma")) []
    = (Ok (mkUi (mkSession true [Samples.good_pdf] false
                   [((true, Some Samples.good_pdf, "chroma"), Some tt)])
             (Some false) "" "" (Some "chroma"),
           ["Knowledge base updated successfully!"]),
       [(true, Samples.good_pdf); (false, Samples.good_pdf)]).
Proof.
  refine (database_change_rebuilds log_plain log_rag log_update (λ _ q, ret q)
            {[ "OPENAI_API_KEY" := "sk" ]}
            (mkSession true [Samples.good_pdf] false
               [((true, Some Samples.good_pdf, "pinecone"), Some tt)])
            "" "" (Some "chroma") Samples.good_pdf [] [] tt [(true, Samples.good_pdf)]
            _ _ _ _).
  - reflexivity.
  - reflexivity.
  - vm_compute. reflexivity.
  - reflexivity.
Defined.

Lemma first_run_skips_update_witness :
  main log_plain log_rag log_update (λ _ q, ret q) {[ "OPENAI_API_KEY" := "sk" ]}
    (mkUi (mkSession true [Samples.good_pdf] true []) None "" "" (Some "chroma")) []
  = main log_plain log_rag (λ _ _, raise "unused") (λ _ q, ret q)
      {[ "OPENAI_API_KEY" := "sk" ]}
      (mkUi (mkSession true [Samples.good_pdf] true []) None "" "" (Some "chroma")) []
  ∧ ∀ ui' shown w',
      main log_plain log_rag log_update (λ _ q, ret q) {[ "OPENAI_API_KEY" := "sk" ]}
        (mkUi (mkSession true [Samples.good_pdf] true []) None "" "" (Some "chroma")) []
      = (Ok (ui', shown), w') →
      knowledge_change (session ui') = false.
Proof.
  destruct (first_run_skips_update log_plain log_rag log_update (λ _ q, ret q)
              (λ _ _, raise "unused") {[ "OPENAI_API_KEY" := "sk" ]}
              (mkUi (mkSession true [Samples.good_pdf] true []) None "" "" (Some "chroma")) [])
    as [Heq Hk]; [reflexivity|].
  split; [exact Heq|]. apply Hk. vm_compute. reflexivity.
Defined.

(** The run of the example: the chain is built for the upload, and
    [update_chain] is not called although [knowledge_change] was set. *)
Example first_run_builds_without_update :
  main log_plain log_rag log_update (λ _ q, ret q) {[ "OPENAI_API_KEY" := "sk" ]}
    (mkUi (mkSession true [Samples.good_pdf] true []) None "" "" (Some "chroma")) []
  = (Ok (mkUi (mkSession true [Samples.good_pdf] false
                 [((true, Some Samples.good_pdf, "chroma"), Some tt)])
           (Some false) "" "" (Some "chroma"), []),
     [(true, Samples.good_pdf)]).
Proof. vm_compute. reflexivity. Qed.

Lemma main_stops_without_keys_witness :
  main log_plain log_rag log_update (λ _ q, ret q) ∅
    (mkUi (mkSession true [Samples.good_pdf] true []) None "" "" None) []
  = (Ok (mkUi (mkSession true [Samples.good_pdf] true []) None "" "" None,
         missing_messages ["OPENAI_API_KEY"; "PINECONE_API_KEY"]), []).
Proof.
  refine (main_stops_without_keys log_plain log_rag log_update (λ _ q, ret q) ∅
            (mkUi (mkSession true [Samples.good_pdf] true []) None "" "" None) [] _).
  vm_compute. discriminate.
Defined.

Lemma main_consumes_question_witness :
  ∃ ui' shown w',
    main log_plain log_rag log_update (λ _ _, raise "timeout")
      {[ "OPENAI_API_KEY" := "sk" ]}
      (mkUi (mkSession false [] false []) (Some true) "hello" "" (Some "chroma")) []
    = (Ok (ui', shown), w')
    ∧ send_input ui' = Some false
    ∧ user_question ui' = ""
    ∧ cache (session ui') = [((false, None, "chroma"), Some tt)].
Proof.
  refine (main_consumes_question log_plain log_rag log_update (λ _ _, raise "timeout")
            {[ "OPENAI_API_KEY" := "sk" ]}
            (mkUi (mkSession false [] false []) (Some true) "hello" "" (Some "chroma")) []
            tt [((false, None, "chroma"), Some tt)] [] _ _ _ _).
  - vm_compute. reflexivity.
  - reflexivity.
  - discriminate.
  - reflexivity.
Defined.

End UiFacts.
